(** * BlockUtils: the account-block construction pipeline of znn.ts

    A shallow embedding of [src/lib/src/utils/block.ts]: the canonical
    encoder ([getTransactionHash]), chain-linkage autofill, the validation
    gate, the plasma policy and the hash / sign / publish sequence, followed
    by the properties the specification states about them.

    Conventions.
    - A JS [number] that holds an integer is a [Z]; the one arithmetic
      operation of block.ts, the [+ 1] on a height, is the addition of
      doubles ([js_add]), which rounds beyond 2^53. A [number | undefined]
      is an [option Z].
    - A [Buffer] is a list of bytes.
    - An [async] function that only computes is a function into [Res]; one
      that mutates the template or talks to a collaborator is a computation
      in the monad [M], which threads the template object, the outside world
      and the log of collaborator calls, and keeps all three when an
      exception is thrown.
    - Modules that block.ts imports but that are not part of the sources at
      hand (bytes helpers, the primitive value classes, the proof-of-work
      solver, the enumeration constants) are either modelled from the
      specification, and marked so, or left as fields of the class
      [Imports]. *)

From Stdlib Require Import ZArith List String Ascii Strings.Byte Bool Lia.
Import ListNotations.
Local Open Scope list_scope.
Local Open Scope Z_scope.

(* ================================================================== *)
(** ** Numbers *)

(** The double nearest to the integer [x], ties going to the even
    mantissa: [x] itself up to 2^53 in magnitude, and beyond that the
    nearest multiple of the power of two that leaves a 53-bit mantissa.
    (Meant for magnitudes below 2^1024, where doubles are finite.) *)
Definition double_of_Z (x : Z) : Z :=
  let a := Z.abs x in
  if a <? 2 ^ 53 then x
  else
    let u := 2 ^ (Z.log2 a - 52) in
    let q := a / u in
    let r := a mod u in
    let q' :=
      if 2 * r <? u then q
      else if u <? 2 * r then q + 1
      else if Z.even q then q else q + 1 in
    Z.sgn x * (q' * u).

(** [a + b] on JS numbers that hold integers: the exact sum, rounded to a
    double. *)
Definition js_add (a b : Z) : Z := double_of_Z (a + b).

(* ================================================================== *)
(** ** Bytes and buffers *)

Definition Buffer := list byte.

Definition byte_of_Z (z : Z) : byte :=
  match Byte.of_N (Z.to_N (z mod 256)) with
  | Some b => b
  | None => x00
  end.

Definition Z_of_byte (b : byte) : Z := Z.of_N (Byte.to_N b).

(** The [n] low-order base-256 digits of [v], least significant first;
    a negative [v] wraps around modulo [256^n] (two's complement). *)
Fixpoint bytesLE (n : nat) (v : Z) : Buffer :=
  match n with
  | O => []
  | S k => byte_of_Z v :: bytesLE k (v / 256)
  end.

Definition bytesBE (n : nat) (v : Z) : Buffer := rev (bytesLE n v).

(** The unsigned integer a byte sequence denotes. *)
Fixpoint leZ (bs : Buffer) : Z :=
  match bs with
  | [] => 0
  | b :: r => Z_of_byte b + 256 * leZ r
  end.

Definition beZ (bs : Buffer) : Z := leZ (rev bs).

(** [Buffer.concat(list)]. *)
Definition Buffer_concat (l : list Buffer) : Buffer := List.concat l.

Definition hexDigit (c : ascii) : option Z :=
  let n := Z.of_nat (nat_of_ascii c) in
  if (48 <=? n) && (n <=? 57) then Some (n - 48)
  else if (97 <=? n) && (n <=? 102) then Some (n - 87)
  else if (65 <=? n) && (n <=? 70) then Some (n - 55)
  else None.

(** [Buffer.from(s, "hex")] as Node.js decodes it: two digits per byte,
    either case; decoding stops at the first pair that is not two hex
    digits, and a trailing single character is dropped. *)
Fixpoint Buffer_from_hex (s : string) : Buffer :=
  match s with
  | String a (String b rest) =>
      match hexDigit a, hexDigit b with
      | Some x, Some y => byte_of_Z (16 * x + y) :: Buffer_from_hex rest
      | _, _ => []
      end
  | _ => []
  end.

Module BytesUtils.

(** Modelled from the spec: [BytesUtils.longToBytes] (utils/bytes.ts) is not
    among the sources; the specification gives the fixed-width integer
    fields as 8 bytes, big-endian. *)
Definition longToBytes (v : Z) : Buffer := bytesBE 8 v.

(** Modelled from the spec: [BytesUtils.numberToBytes] (utils/bytes.ts) is
    not among the sources; the specification gives the field as [size]
    bytes, big-endian, and the comment above its call in block.ts records
    that a negative value comes out as 255, 255, ..., 255, 232, that is
    wrapped around modulo [256^size]. *)
Definition numberToBytes (v : Z) (size : nat) : Buffer := bytesBE size v.

(** Modelled from the spec: [BytesUtils.leftPadBytes] (utils/bytes.ts) is not
    among the sources; the specification has the nonce "left-padded" to 8
    bytes: zero bytes are put in front until the buffer has [size] bytes. *)
Definition leftPadBytes (b : Buffer) (size : nat) : Buffer :=
  repeat x00 (size - List.length b) ++ b.

End BytesUtils.

(* ================================================================== *)
(** ** Exceptions and results *)

(** A thrown JS value, by its class name and message (a stack trace is
    not part of the model). *)
Record Exn := mkExn { exn_name : string; exn_message : string }.

(** [Error()]: an Error without a message. *)
Definition JsError : Exn := mkExn "Error" "".

Inductive Res (A : Type) : Type :=
| Ok (a : A)
| Throw (e : Exn).
Arguments Ok {A} a.
Arguments Throw {A} e.

(* ================================================================== *)
(** ** The data model *)

Module Hash.
(** A reference to a [Hash] object. [==] on objects is identity in JS, and
    the one object block.ts compares against is the module constant
    [emptyHash]: a reference is either that very object or another [Hash]
    object with bytes of its own (which may be the same bytes). *)
Inductive t : Type :=
| sentinel
| object (hash : Buffer).
End Hash.
Abbreviation Hash := Hash.t.

(** [import { emptyHash } from "../model/primitives/hash"]. *)
Definition emptyHash : Hash := Hash.sentinel.

(** [h == emptyHash]. *)
Definition is_emptyHash (h : Hash) : bool :=
  match h with
  | Hash.sentinel => true
  | Hash.object _ => false
  end.

Module Address.
Record t := mk { core : Buffer }.
End Address.
Abbreviation Address := Address.t.

Module TokenStandard.
Record t := mk { core : Buffer }.
End TokenStandard.
Abbreviation TokenStandard := TokenStandard.t.

Module HashHeight.
Record t := mk { hash : Hash; height : Z }.
End HashHeight.
Abbreviation HashHeight := HashHeight.t.

(** What the Ledger Reader returns for the frontier momentum. *)
Module Momentum.
Record t := mk { hash : Hash; height : Z }.
End Momentum.
Abbreviation Momentum := Momentum.t.

(** An account block as the Ledger Reader returns it; block.ts reads these
    three fields. *)
Module AccountBlock.
Record t := mk { hash : Hash; height : Z; toAddress : Address }.
End AccountBlock.
Abbreviation AccountBlock := AccountBlock.t.

Record AccountBlockTemplate := mkTemplate {
  version : Z;
  chainIdentifier : Z;
  blockType : option Z;
  hash : Hash;
  previousHash : Hash;
  height : Z;
  momentumAcknowledged : HashHeight;
  address : Address;
  toAddress : Address;
  amount : Z;
  tokenStandard : TokenStandard;
  fromBlockHash : Hash;
  data : Buffer;
  fusedPlasma : Z;
  difficulty : Z;
  nonce : string;
  publicKey : Buffer;
  signature : Buffer
}.

(** Field assignments [transaction.f = v]. *)
Definition set_address (v : Address) (t : AccountBlockTemplate) : AccountBlockTemplate :=
  mkTemplate (version t) (chainIdentifier t) (blockType t) (hash t) (previousHash t) (height t)
    (momentumAcknowledged t) v (toAddress t) (amount t) (tokenStandard t) (fromBlockHash t)
    (data t) (fusedPlasma t) (difficulty t) (nonce t) (publicKey t) (signature t).
Definition set_publicKey (v : Buffer) (t : AccountBlockTemplate) : AccountBlockTemplate :=
  mkTemplate (version t) (chainIdentifier t) (blockType t) (hash t) (previousHash t) (height t)
    (momentumAcknowledged t) (address t) (toAddress t) (amount t) (tokenStandard t) (fromBlockHash t)
    (data t) (fusedPlasma t) (difficulty t) (nonce t) v (signature t).
Definition set_height (v : Z) (t : AccountBlockTemplate) : AccountBlockTemplate :=
  mkTemplate (version t) (chainIdentifier t) (blockType t) (hash t) (previousHash t) v
    (momentumAcknowledged t) (address t) (toAddress t) (amount t) (tokenStandard t) (fromBlockHash t)
    (data t) (fusedPlasma t) (difficulty t) (nonce t) (publicKey t) (signature t).
Definition set_previousHash (v : Hash) (t : AccountBlockTemplate) : AccountBlockTemplate :=
  mkTemplate (version t) (chainIdentifier t) (blockType t) (hash t) v (height t)
    (momentumAcknowledged t) (address t) (toAddress t) (amount t) (tokenStandard t) (fromBlockHash t)
    (data t) (fusedPlasma t) (difficulty t) (nonce t) (publicKey t) (signature t).
Definition set_momentumAcknowledged (v : HashHeight) (t : AccountBlockTemplate) : AccountBlockTemplate :=
  mkTemplate (version t) (chainIdentifier t) (blockType t) (hash t) (previousHash t) (height t)
    v (address t) (toAddress t) (amount t) (tokenStandard t) (fromBlockHash t)
    (data t) (fusedPlasma t) (difficulty t) (nonce t) (publicKey t) (signature t).
Definition set_fusedPlasma (v : Z) (t : AccountBlockTemplate) : AccountBlockTemplate :=
  mkTemplate (version t) (chainIdentifier t) (blockType t) (hash t) (previousHash t) (height t)
    (momentumAcknowledged t) (address t) (toAddress t) (amount t) (tokenStandard t) (fromBlockHash t)
    (data t) v (difficulty t) (nonce t) (publicKey t) (signature t).
Definition set_difficulty (v : Z) (t : AccountBlockTemplate) : AccountBlockTemplate :=
  mkTemplate (version t) (chainIdentifier t) (blockType t) (hash t) (previousHash t) (height t)
    (momentumAcknowledged t) (address t) (toAddress t) (amount t) (tokenStandard t) (fromBlockHash t)
    (data t) (fusedPlasma t) v (nonce t) (publicKey t) (signature t).
Definition set_nonce (v : string) (t : AccountBlockTemplate) : AccountBlockTemplate :=
  mkTemplate (version t) (chainIdentifier t) (blockType t) (hash t) (previousHash t) (height t)
    (momentumAcknowledged t) (address t) (toAddress t) (amount t) (tokenStandard t) (fromBlockHash t)
    (data t) (fusedPlasma t) (difficulty t) v (publicKey t) (signature t).
Definition set_hash (v : Hash) (t : AccountBlockTemplate) : AccountBlockTemplate :=
  mkTemplate (version t) (chainIdentifier t) (blockType t) v (previousHash t) (height t)
    (momentumAcknowledged t) (address t) (toAddress t) (amount t) (tokenStandard t) (fromBlockHash t)
    (data t) (fusedPlasma t) (difficulty t) (nonce t) (publicKey t) (signature t).
Definition set_signature (v : Buffer) (t : AccountBlockTemplate) : AccountBlockTemplate :=
  mkTemplate (version t) (chainIdentifier t) (blockType t) (hash t) (previousHash t) (height t)
    (momentumAcknowledged t) (address t) (toAddress t) (amount t) (tokenStandard t) (fromBlockHash t)
    (data t) (fusedPlasma t) (difficulty t) (nonce t) (publicKey t) v.

(** [new GetRequiredParam(address, blockType, toAddress, data)]. *)
Record GetRequiredParam := mkGetRequiredParam {
  grp_address : Address;
  grp_blockType : option Z;
  grp_toAddress : Address;
  grp_data : Buffer
}.

(** The Plasma-Quota answer. *)
Record GetRequiredResponse := mkGetRequiredResponse {
  availablePlasma : Z;
  basePlasma : Z;
  requiredDifficulty : Z
}.

(** [PowStatus] of pow/pow.ts. *)
Inductive PowStatus := generating | done.

(* ================================================================== *)
(** ** Collaborators *)

(** A call to a collaborator reads and may change the outside world [W],
    and either returns or throws. *)
Definition Collab (W A : Type) : Type := W -> Res A * W.

(** The Ledger Reader and the Ledger Writer ([zenonInstance.ledger]). *)
Record LedgerApi (W : Type) := mkLedgerApi {
  getFrontierBlock : Address -> Collab W (option AccountBlock);
  getFrontierMomentum : Collab W Momentum;
  getBlockByHash : Hash -> Collab W (option AccountBlock);
  publishRawTransaction : AccountBlockTemplate -> Collab W unit
}.
Arguments getFrontierBlock {W} _ _ _.
Arguments getFrontierMomentum {W} _ _.
Arguments getBlockByHash {W} _ _ _.
Arguments publishRawTransaction {W} _ _ _.

(** The Plasma-Quota collaborator ([zenonInstance.embedded.plasma]). *)
Record PlasmaApi (W : Type) := mkPlasmaApi {
  getRequiredPoWForAccountBlock : GetRequiredParam -> Collab W GetRequiredResponse
}.
Arguments getRequiredPoWForAccountBlock {W} _ _ _.

Record EmbeddedApi (W : Type) := mkEmbeddedApi { plasma : PlasmaApi W }.
Arguments plasma {W} _.

Record Zenon (W : Type) := mkZenon {
  ledger : LedgerApi W;
  embedded : EmbeddedApi W
}.
Arguments ledger {W} _.
Arguments embedded {W} _.

(** The caller's key material. *)
Record KeyPair (W : Type) := mkKeyPair {
  getAddress : Collab W Address;
  getPublicKey : Collab W Buffer;
  sign : Buffer -> Collab W Buffer
}.
Arguments getAddress {W} _ _.
Arguments getPublicKey {W} _ _.
Arguments sign {W} _ _ _.

(** A JS function used as progress observer, applied to a [this] value and
    a list of arguments. *)
Definition Function (W : Type) : Type := PowStatus -> list PowStatus -> Collab W unit.

(** What block.ts imports from modules that are not among the sources and
    that the specification leaves open. *)
Class Imports (W : Type) := {
  (** the 256-bit digest behind [Hash.digest] *)
  digest : Buffer -> Buffer;
  (** the bytes of the [emptyHash] constant *)
  emptyHash_bytes : Buffer;
  (** [HashHeight.getBytes()] *)
  HashHeight_getBytes : HashHeight -> Buffer;
  (** [Address.toString()] *)
  Address_toString : Address -> string;
  (** the fixed byte length of a token standard *)
  TokenStandard_size : nat;
  (** [BytesUtils.longToBytes(undefined)] *)
  longToBytes_undefined : Res Buffer;
  (** the members of [BlockTypeEnum] *)
  userSend : Z;
  contractSend : Z;
  userReceive : Z;
  genesisReceive : Z;
  contractReceive : Z;
  (** [generatePoW] of pow/pow.ts, the PoW Solver; it returns the nonce *)
  generatePoW : Hash -> Z -> Collab W string
}.

(** One call to a collaborator, with its arguments. *)
Inductive Event : Type :=
| EvGetAddress
| EvGetPublicKey
| EvGetFrontierBlock (a : Address)
| EvGetFrontierMomentum
| EvGetBlockByHash (h : Hash)
| EvGetRequiredPoW (p : GetRequiredParam)
| EvObserver (this : PowStatus) (args : list PowStatus)
| EvGeneratePoW (powData : Hash) (difficulty : Z)
| EvSign (message : Buffer)
| EvPublish (t : AccountBlockTemplate).

(* ================================================================== *)
(** ** The monad of the pipeline *)

(** The template object all stages mutate, the outside world, and the
    collaborator calls made so far, oldest first. *)
Record State (W : Type) := mkState {
  tx : AccountBlockTemplate;
  world : W;
  trace : list Event
}.
Arguments mkState {W} _ _ _.
Arguments tx {W} _.
Arguments world {W} _.
Arguments trace {W} _.

Definition M (W A : Type) : Type := State W -> Res A * State W.

Definition ret {W A : Type} (a : A) : M W A := fun s => (Ok a, s).

Definition bind {W A B : Type} (m : M W A) (k : A -> M W B) : M W B :=
  fun s =>
    match m s with
    | (Ok a, s') => k a s'
    | (Throw e, s') => (Throw e, s')
    end.

Definition throw {W A : Type} (e : Exn) : M W A := fun s => (Throw e, s).

Definition lift {W A : Type} (r : Res A) : M W A := fun s => (r, s).

(** Read the template object. *)
Definition getTx {W : Type} : M W AccountBlockTemplate := fun s => (Ok (tx s), s).

(** Assign to a field of the template object. *)
Definition assign {W : Type} (f : AccountBlockTemplate -> AccountBlockTemplate) : M W unit :=
  fun s => (Ok tt, mkState (f (tx s)) (world s) (trace s)).

(** Call a collaborator: the call is logged, then its outcome is taken. *)
Definition call {W A : Type} (ev : Event) (c : Collab W A) : M W A :=
  fun s =>
    let (r, w) := c (world s) in
    (r, mkState (tx s) w (trace s ++ [ev])).

Declare Scope pipeline_scope.
Delimit Scope pipeline_scope with pipeline.
Notation "x <- m ;; k" := (bind m (fun x => k))
  (at level 61, m at next level, right associativity) : pipeline_scope.
Notation "m ;; k" := (bind m (fun _ => k))
  (at level 61, right associativity) : pipeline_scope.
Local Open Scope pipeline_scope.

(* ================================================================== *)
(** ** BlockUtils *)

Section BlockUtils.

Context {W : Type} `{Imports W}.

(** Modelled from the spec: [Hash.getBytes] and the field [Hash.hash]
    (model/primitives/hash.ts) are not among the sources; a hash is its
    digest bytes, the sentinel has the bytes of the constant. *)
Definition Hash_getBytes (h : Hash) : Buffer :=
  match h with
  | Hash.sentinel => emptyHash_bytes
  | Hash.object b => b
  end.

(** Modelled from the spec: [Hash.digest] (model/primitives/hash.ts) is not
    among the sources; it wraps the digest of its argument in a new [Hash]
    object. *)
Definition Hash_digest (b : Buffer) : Hash := Hash.object (digest b).

(** Modelled from the spec: [Address.getBytes] (model/primitives/address.ts)
    is not among the sources; an address is its account identifier bytes. *)
Definition Address_getBytes (a : Address) : Buffer := Address.core a.

(** Modelled from the spec: [TokenStandard.getBytes] is not among the
    sources; a token standard is its fixed-width identifier bytes. *)
Definition TokenStandard_getBytes (z : TokenStandard) : Buffer := TokenStandard.core z.

(** [BytesUtils.longToBytes] at a [number | undefined]. *)
Definition longToBytes (v : option Z) : Res Buffer :=
  match v with
  | Some n => Ok (BytesUtils.longToBytes n)
  | None => longToBytes_undefined
  end.

(** [Array.prototype.includes] on an array of numbers. *)
Definition includes (l : list Z) (v : option Z) : bool :=
  match v with
  | Some n => existsb (Z.eqb n) l
  | None => false
  end.

Definition isSendBlock (blockType : option Z) : bool :=
  includes [userSend; contractSend] blockType.

Definition isReceiveBlock (blockType : Z) : bool :=
  includes [userReceive; genesisReceive; contractReceive] (Some blockType).

(** The buffer [source] of [getTransactionHash]: the sixteen fields in the
    order of the [Buffer.concat] call. *)
Definition getTransactionHash_source (transaction : AccountBlockTemplate) : Res Buffer :=
  let versionBytes := BytesUtils.longToBytes (version transaction) in
  let chainIdentifierBytes := BytesUtils.longToBytes (chainIdentifier transaction) in
  match longToBytes (blockType transaction) with
  | Throw e => Throw e
  | Ok blockTypeBytes =>
    let previousHashBytes := Hash_getBytes (previousHash transaction) in
    let heightBytes := BytesUtils.longToBytes (height transaction) in
    let momentumAcknowledgedBytes := HashHeight_getBytes (momentumAcknowledged transaction) in
    let addressBytes := Address_getBytes (address transaction) in
    let toAddressBytes := Address_getBytes (toAddress transaction) in
    let amountBytes := BytesUtils.numberToBytes (amount transaction) 32 in
    let tokenStandardBytes := TokenStandard_getBytes (tokenStandard transaction) in
    let fromBlockHashBytes := Hash_getBytes (fromBlockHash transaction) in
    let descendentBlocksBytes := Hash_getBytes (Hash_digest []) in
    let dataBytes := Hash_getBytes (Hash_digest (data transaction)) in
    let fusedPlasmaBytes := BytesUtils.longToBytes (fusedPlasma transaction) in
    let difficultyBytes := BytesUtils.longToBytes (difficulty transaction) in
    let nonceBytes := BytesUtils.leftPadBytes (Buffer_from_hex (nonce transaction)) 8 in
    Ok (Buffer_concat [
      versionBytes;
      chainIdentifierBytes;
      blockTypeBytes;
      previousHashBytes;
      heightBytes;
      momentumAcknowledgedBytes;
      addressBytes;
      toAddressBytes;
      amountBytes;
      tokenStandardBytes;
      fromBlockHashBytes;
      descendentBlocksBytes;
      dataBytes;
      fusedPlasmaBytes;
      difficultyBytes;
      nonceBytes
    ])
  end.

Definition getTransactionHash (transaction : AccountBlockTemplate) : Res Hash :=
  match getTransactionHash_source transaction with
  | Ok source => Ok (Hash_digest source)
  | Throw e => Throw e
  end.

(** In the functions below the parameter [transaction] is the template
    object of the state. *)

Definition _getTransactionSignature (keyPair : KeyPair W) : M W Buffer :=
  transaction <- getTx ;;
  let message := Hash_getBytes (hash transaction) in
  sig <- call (EvSign message) (sign keyPair message) ;;
  ret sig.

Definition _getPoWData (transaction : AccountBlockTemplate) : Hash :=
  Hash_digest (Buffer_concat
    [Address_getBytes (address transaction); Hash_getBytes (previousHash transaction)]).

Definition _autofillTransactionParameters (zenonInstance : Zenon W) : M W unit :=
  accountBlockTemplate <- getTx ;;
  frontierAccountBlock <-
    call (EvGetFrontierBlock (address accountBlockTemplate))
         (getFrontierBlock (ledger zenonInstance) (address accountBlockTemplate)) ;;
  let height :=
    match frontierAccountBlock with
    | Some b => js_add (AccountBlock.height b) 1
    | None => 1
    end in
  let previousHash :=
    match frontierAccountBlock with
    | Some b => AccountBlock.hash b
    | None => emptyHash
    end in
  assign (set_height height) ;;
  assign (set_previousHash previousHash) ;;
  frontierMomentum <- call EvGetFrontierMomentum (getFrontierMomentum (ledger zenonInstance)) ;;
  let momentumAcknowledged :=
    HashHeight.mk (Momentum.hash frontierMomentum) (Momentum.height frontierMomentum) in
  assign (set_momentumAcknowledged momentumAcknowledged).

(** The [else] branch of [_checkAndSetFields] (lines 108 to 122): the rules
    for a block that is not a send block. *)
Definition receive_rules (zenonInstance : Zenon W) (transaction : AccountBlockTemplate) : M W unit :=
  (if is_emptyHash (fromBlockHash transaction) then throw JsError else ret tt) ;;
  sendBlock <-
    call (EvGetBlockByHash (fromBlockHash transaction))
         (getBlockByHash (ledger zenonInstance) (fromBlockHash transaction)) ;;
  match sendBlock with
  | None => throw JsError
  | Some sendBlock =>
      (if negb (String.eqb (Address_toString (AccountBlock.toAddress sendBlock))
                           (Address_toString (address transaction)))
       then throw JsError else ret tt) ;;
      (if (0 <? List.length (data transaction))%nat then throw JsError else ret tt)
  end.

(** The last check of [_checkAndSetFields] (lines 125 to 127). *)
Definition difficulty_guard (transaction : AccountBlockTemplate) : M W unit :=
  if (0 <? difficulty transaction) && String.eqb (nonce transaction) ""
  then throw JsError else ret tt.

Definition _checkAndSetFields (zenonInstance : Zenon W) (currentKeyPair : KeyPair W) : M W bool :=
  a <- call EvGetAddress (getAddress currentKeyPair) ;;
  assign (set_address a) ;;
  pk <- call EvGetPublicKey (getPublicKey currentKeyPair) ;;
  assign (set_publicKey pk) ;;
  _autofillTransactionParameters zenonInstance ;;
  transaction <- getTx ;;
  (if isSendBlock (blockType transaction) then ret tt
   else receive_rules zenonInstance transaction) ;;
  difficulty_guard transaction ;;
  ret true.

(** [generatingPowCallback?.call(status)]: nothing when no callback was
    given; otherwise [Function.prototype.call] applies the callback with
    [status] as its [this] value and with no arguments. *)
Definition optional_call (generatingPowCallback : option (Function W)) (status : PowStatus) : M W unit :=
  match generatingPowCallback with
  | None => ret tt
  | Some f => call (EvObserver status []) (f status [])
  end.

(** The [logger.info] lines only write to the log and are left out. *)
Definition _setDifficulty (zenonInstance : Zenon W)
    (generatingPowCallback : option (Function W)) (waitForRequiredPlasma : bool) : M W bool :=
  transaction <- getTx ;;
  let powParam := mkGetRequiredParam (address transaction) (blockType transaction)
                    (toAddress transaction) (data transaction) in
  response <-
    call (EvGetRequiredPoW powParam)
         (getRequiredPoWForAccountBlock (plasma (embedded zenonInstance)) powParam) ;;
  (if negb (requiredDifficulty response =? 0) then
     assign (set_fusedPlasma (availablePlasma response)) ;;
     assign (set_difficulty (requiredDifficulty response)) ;;
     transaction <- getTx ;;
     let powData := _getPoWData transaction in
     optional_call generatingPowCallback generating ;;
     transaction <- getTx ;;
     n <- call (EvGeneratePoW powData (difficulty transaction))
               (generatePoW powData (difficulty transaction)) ;;
     assign (set_nonce (n ++ "")%string) ;;
     optional_call generatingPowCallback done
   else
     assign (set_fusedPlasma (basePlasma response)) ;;
     assign (set_difficulty 0) ;;
     assign (set_nonce "0000000000000000")) ;;
  ret true.

Definition _setHashAndSignature (currentKeyPair : KeyPair W) : M W bool :=
  transaction <- getTx ;;
  h <- lift (getTransactionHash transaction) ;;
  assign (set_hash h) ;;
  transSig <- _getTransactionSignature currentKeyPair ;;
  assign (set_signature transSig) ;;
  ret true.

Definition send (zenonInstance : Zenon W) (currentKeyPair : KeyPair W)
    (generatingPowCallback : option (Function W)) (waitForRequiredPlasma : bool)
    : M W AccountBlockTemplate :=
  _checkAndSetFields zenonInstance currentKeyPair ;;
  _setDifficulty zenonInstance generatingPowCallback waitForRequiredPlasma ;;
  _setHashAndSignature currentKeyPair ;;
  transaction <- getTx ;;
  call (EvPublish transaction) (publishRawTransaction (ledger zenonInstance) transaction) ;;
  transaction <- getTx ;;
  ret transaction.

(* ------------------------------------------------------------------ *)
(** *** Predicates used by the statements *)

(** The sixteen fields of the canonical encoding, in the order the
    specification lists them, for a template of block type [bt]. *)
Definition canonical_fields (bt : Z) (t : AccountBlockTemplate) : list Buffer :=
  [ bytesBE 8 (version t);
    bytesBE 8 (chainIdentifier t);
    bytesBE 8 bt;
    Hash_getBytes (previousHash t);
    bytesBE 8 (height t);
    HashHeight_getBytes (momentumAcknowledged t);
    Address.core (address t);
    Address.core (toAddress t);
    bytesBE 32 (amount t);
    TokenStandard.core (tokenStandard t);
    Hash_getBytes (fromBlockHash t);
    digest [];
    digest (data t);
    bytesBE 8 (fusedPlasma t);
    bytesBE 8 (difficulty t);
    repeat x00 (8 - List.length (Buffer_from_hex (nonce t))) ++ Buffer_from_hex (nonce t) ].

(** A fully-populated template of the data model: the block type is set,
    the integers are within their unsigned ranges, hashes have 32 bytes,
    addresses 20, the token standard its fixed width, and the nonce decodes
    to at most 8 bytes. *)
Record fully_populated (t : AccountBlockTemplate) : Prop := {
  fp_blockType : exists bt, blockType t = Some bt /\ 0 <= bt < 2 ^ 64;
  fp_version : 0 <= version t < 2 ^ 64;
  fp_chainIdentifier : 0 <= chainIdentifier t < 2 ^ 64;
  fp_height : 0 <= height t < 2 ^ 64;
  fp_amount : 0 <= amount t < 2 ^ 256;
  fp_fusedPlasma : 0 <= fusedPlasma t < 2 ^ 64;
  fp_difficulty : 0 <= difficulty t < 2 ^ 64;
  fp_previousHash : List.length (Hash_getBytes (previousHash t)) = 32%nat;
  fp_momentumAcknowledged :
    List.length (HashHeight_getBytes (momentumAcknowledged t)) = 32%nat;
  fp_address : List.length (Address.core (address t)) = 20%nat;
  fp_toAddress : List.length (Address.core (toAddress t)) = 20%nat;
  fp_tokenStandard :
    List.length (TokenStandard.core (tokenStandard t)) = TokenStandard_size;
  fp_fromBlockHash : List.length (Hash_getBytes (fromBlockHash t)) = 32%nat;
  fp_nonce : (List.length (Buffer_from_hex (nonce t)) <= 8)%nat
}.

(** Two templates hold the same values in every field the encoder reads;
    a hash counts by its bytes, whichever object carries them. *)
Definition same_field_values (t1 t2 : AccountBlockTemplate) : Prop :=
  version t1 = version t2 /\
  chainIdentifier t1 = chainIdentifier t2 /\
  blockType t1 = blockType t2 /\
  Hash_getBytes (previousHash t1) = Hash_getBytes (previousHash t2) /\
  height t1 = height t2 /\
  momentumAcknowledged t1 = momentumAcknowledged t2 /\
  address t1 = address t2 /\
  toAddress t1 = toAddress t2 /\
  amount t1 = amount t2 /\
  tokenStandard t1 = tokenStandard t2 /\
  Hash_getBytes (fromBlockHash t1) = Hash_getBytes (fromBlockHash t2) /\
  data t1 = data t2 /\
  fusedPlasma t1 = fusedPlasma t2 /\
  difficulty t1 = difficulty t2 /\
  nonce t1 = nonce t2.

(** What the encoded byte sequence pins down: every fixed-width field, the
    digest of [data], and the decoded, left-padded nonce bytes. *)
Definition same_encoded_values (t1 t2 : AccountBlockTemplate) : Prop :=
  version t1 = version t2 /\
  chainIdentifier t1 = chainIdentifier t2 /\
  blockType t1 = blockType t2 /\
  Hash_getBytes (previousHash t1) = Hash_getBytes (previousHash t2) /\
  height t1 = height t2 /\
  HashHeight_getBytes (momentumAcknowledged t1)
    = HashHeight_getBytes (momentumAcknowledged t2) /\
  address t1 = address t2 /\
  toAddress t1 = toAddress t2 /\
  amount t1 = amount t2 /\
  tokenStandard t1 = tokenStandard t2 /\
  Hash_getBytes (fromBlockHash t1) = Hash_getBytes (fromBlockHash t2) /\
  digest (data t1) = digest (data t2) /\
  fusedPlasma t1 = fusedPlasma t2 /\
  difficulty t1 = difficulty t2 /\
  BytesUtils.leftPadBytes (Buffer_from_hex (nonce t1)) 8
    = BytesUtils.leftPadBytes (Buffer_from_hex (nonce t2)) 8.

(** The fields chain-linkage autofill leaves alone: all but [height],
    [previousHash] and [momentumAcknowledged]. *)
Definition linkage_frame (t t' : AccountBlockTemplate) : Prop :=
  version t' = version t /\
  chainIdentifier t' = chainIdentifier t /\
  blockType t' = blockType t /\
  hash t' = hash t /\
  address t' = address t /\
  toAddress t' = toAddress t /\
  amount t' = amount t /\
  tokenStandard t' = tokenStandard t /\
  fromBlockHash t' = fromBlockHash t /\
  data t' = data t /\
  fusedPlasma t' = fusedPlasma t /\
  difficulty t' = difficulty t /\
  nonce t' = nonce t /\
  publicKey t' = publicKey t /\
  signature t' = signature t.

(** The collaborators of each stage of [send]. *)
Definition validation_event (e : Event) : bool :=
  match e with
  | EvGetAddress | EvGetPublicKey | EvGetFrontierBlock _
  | EvGetFrontierMomentum | EvGetBlockByHash _ => true
  | _ => false
  end.

Definition plasma_event (e : Event) : bool :=
  match e with
  | EvGetRequiredPoW _ | EvObserver _ _ | EvGeneratePoW _ _ => true
  | _ => false
  end.

Definition signing_event (e : Event) : bool :=
  match e with
  | EvSign _ => true
  | _ => false
  end.

Definition publish_event (e : Event) : bool :=
  match e with
  | EvPublish _ => true
  | _ => false
  end.

Definition solver_event (e : Event) : bool :=
  match e with
  | EvGeneratePoW _ _ => true
  | _ => false
  end.

(** A computation logs only calls of the kind [P], whatever its outcome. *)
Definition emits {A : Type} (P : Event -> bool) (m : M W A) : Prop :=
  forall s r s', m s = (r, s') ->
    exists evs, trace s' = trace s ++ evs /\ forallb P evs = true.

(** The template once the gate has set the address and public key and
    autofill has set the linkage fields. *)
Definition linked (a : Address) (pk : Buffer) (fb : option AccountBlock)
    (m : Momentum) (t : AccountBlockTemplate) : AccountBlockTemplate :=
  set_momentumAcknowledged (HashHeight.mk (Momentum.hash m) (Momentum.height m))
    (set_previousHash (match fb with Some b => AccountBlock.hash b | None => emptyHash end)
      (set_height (match fb with Some b => js_add (AccountBlock.height b) 1 | None => 1 end)
        (set_publicKey pk (set_address a t)))).

(** The calls the gate makes before it looks at the block type. *)
Definition linkage_calls (a : Address) : list Event :=
  [EvGetAddress; EvGetPublicKey; EvGetFrontierBlock a; EvGetFrontierMomentum].

(** Key material and Ledger Reader answer the gate's first four calls,
    starting from the world [w0] and ending in [w4]. *)
Definition linkage_reads (z : Zenon W) (kp : KeyPair W) (w0 : W)
    (a : Address) (pk : Buffer) (fb : option AccountBlock) (m : Momentum) (w4 : W) : Prop :=
  exists w1 w2 w3,
    getAddress kp w0 = (Ok a, w1) /\
    getPublicKey kp w1 = (Ok pk, w2) /\
    getFrontierBlock (ledger z) a w2 = (Ok fb, w3) /\
    getFrontierMomentum (ledger z) w3 = (Ok m, w4).

(** What the gate returns once only the difficulty guard is left. *)
Definition guard_verdict (t : AccountBlockTemplate) : Res bool :=
  if (0 <? difficulty t) && String.eqb (nonce t) "" then Throw JsError else Ok true.

(** The receive-variant rules, as the gate enforces them on the template of
    [s] once key material and Ledger Reader have answered ([a] is the
    address the gate has put into the template, [w4] the world it has
    reached): rule (a) rejects the empty-hash sentinel before any lookup;
    otherwise the block is looked up, and rule (b) rejects an absent block,
    rule (c) a block whose [toAddress] is not [a], rule (d) a non-empty
    [data]; a template that passes all four goes on to the difficulty
    guard; a failing lookup is passed on. *)
Definition receive_rules_enforced (z : Zenon W) (kp : KeyPair W) (s : State W)
    (a : Address) (pk : Buffer) (fb : option AccountBlock) (m : Momentum) (w4 : W) : Prop :=
  let h := fromBlockHash (tx s) in
  let t4 := linked a pk fb m (tx s) in
  let s4 := mkState t4 w4 (trace s ++ linkage_calls a) in
  let s5 := fun w5 => mkState t4 w5 (trace s ++ linkage_calls a ++ [EvGetBlockByHash h]) in
  (h = emptyHash -> _checkAndSetFields z kp s = (Throw JsError, s4)) /\
  (h <> emptyHash ->
   forall r w5, getBlockByHash (ledger z) h w4 = (r, w5) ->
     (r = Ok None -> _checkAndSetFields z kp s = (Throw JsError, s5 w5)) /\
     (forall sb, r = Ok (Some sb) ->
        Address_toString (AccountBlock.toAddress sb) <> Address_toString a ->
        _checkAndSetFields z kp s = (Throw JsError, s5 w5)) /\
     (forall sb, r = Ok (Some sb) ->
        data (tx s) <> [] ->
        _checkAndSetFields z kp s = (Throw JsError, s5 w5)) /\
     (forall sb, r = Ok (Some sb) ->
        Address_toString (AccountBlock.toAddress sb) = Address_toString a ->
        data (tx s) = [] ->
        _checkAndSetFields z kp s = (guard_verdict (tx s), s5 w5)) /\
     (forall e, r = Throw e -> _checkAndSetFields z kp s = (Throw e, s5 w5))).

(** The Plasma-Quota query for a template. *)
Definition quota_param (t : AccountBlockTemplate) : GetRequiredParam :=
  mkGetRequiredParam (address t) (blockType t) (toAddress t) (data t).

(** What calling the optional observer amounts to: nothing when there is
    none, else the application of the function to [status] as [this] and no
    argument. *)
Definition observe (cb : option (Function W)) (status : PowStatus) : Collab W unit :=
  match cb with
  | None => fun w => (Ok tt, w)
  | Some f => f status []
  end.

Definition observer_calls (cb : option (Function W)) (status : PowStatus) : list Event :=
  match cb with
  | None => []
  | Some _ => [EvObserver status []]
  end.

(** The template once the PoW branch has stored plasma and difficulty. *)
Definition pow_funded (resp : GetRequiredResponse) (t : AccountBlockTemplate) : AccountBlockTemplate :=
  set_difficulty (requiredDifficulty resp) (set_fusedPlasma (availablePlasma resp) t).

End BlockUtils.

(* ================================================================== *)
(** ** What the stages keep, and whom they call *)

Section StageProperties.

Context {W : Type}.

(** A computation leaves the value [f] reads off the template as it was,
    whatever its outcome. *)
Definition preserves {X A : Type} (f : AccountBlockTemplate -> X) (m : M W A) : Prop :=
  forall s r s', m s = (r, s') -> f (tx s') = f (tx s).

(** The fields [_checkAndSetFields] never assigns. *)
Definition gate_kept (t : AccountBlockTemplate) :=
  (version t, chainIdentifier t, blockType t, hash t, toAddress t, amount t,
   tokenStandard t, fromBlockHash t, data t, fusedPlasma t, difficulty t,
   nonce t, signature t).

(** The fields [_setDifficulty] never assigns. *)
Definition plasma_kept (t : AccountBlockTemplate) :=
  (version t, chainIdentifier t, blockType t, hash t, previousHash t, height t,
   momentumAcknowledged t, address t, toAddress t, amount t, tokenStandard t,
   fromBlockHash t, data t, publicKey t, signature t).

(** The fields [_setHashAndSignature] never assigns. *)
Definition signing_kept (t : AccountBlockTemplate) :=
  (version t, chainIdentifier t, blockType t, previousHash t, height t,
   momentumAcknowledged t, address t, toAddress t, amount t, tokenStandard t,
   fromBlockHash t, data t, fusedPlasma t, difficulty t, nonce t, publicKey t).

(** The fields neither [_setDifficulty] nor [_setHashAndSignature]
    assigns: what the gate has left in the template stays. *)
Definition gate_result_kept (t : AccountBlockTemplate) :=
  (version t, chainIdentifier t, blockType t, previousHash t, height t,
   momentumAcknowledged t, address t, toAddress t, amount t, tokenStandard t,
   fromBlockHash t, data t, publicKey t).

(** The collaborators of the pipeline, one per function called. *)
Inductive Collaborator : Type :=
| CGetAddress | CGetPublicKey | CGetFrontierBlock | CGetFrontierMomentum
| CGetBlockByHash | CGetRequiredPoW | CObserver | CGeneratePoW | CSign | CPublish.

Definition collaborator_of (e : Event) : Collaborator :=
  match e with
  | EvGetAddress => CGetAddress
  | EvGetPublicKey => CGetPublicKey
  | EvGetFrontierBlock _ => CGetFrontierBlock
  | EvGetFrontierMomentum => CGetFrontierMomentum
  | EvGetBlockByHash _ => CGetBlockByHash
  | EvGetRequiredPoW _ => CGetRequiredPoW
  | EvObserver _ _ => CObserver
  | EvGeneratePoW _ _ => CGeneratePoW
  | EvSign _ => CSign
  | EvPublish _ => CPublish
  end.

Definition Collaborator_eqb (c d : Collaborator) : bool :=
  match c, d with
  | CGetAddress, CGetAddress | CGetPublicKey, CGetPublicKey
  | CGetFrontierBlock, CGetFrontierBlock
  | CGetFrontierMomentum, CGetFrontierMomentum
  | CGetBlockByHash, CGetBlockByHash | CGetRequiredPoW, CGetRequiredPoW
  | CObserver, CObserver | CGeneratePoW, CGeneratePoW
  | CSign, CSign | CPublish, CPublish => true
  | _, _ => false
  end.

(** The logged event is a call to [c]. *)
Definition is_call_to (c : Collaborator) (e : Event) : bool :=
  Collaborator_eqb c (collaborator_of e).

(** How often [c] is called in a stretch of the log. *)
Definition calls_to (c : Collaborator) (evs : list Event) : nat :=
  List.length (filter (is_call_to c) evs).

(** A computation logs at most [n] events of the kind [P], whatever its
    outcome. *)
Definition at_most {A : Type} (P : Event -> bool) (n : nat) (m : M W A) : Prop :=
  forall s r s', m s = (r, s') ->
    exists evs, trace s' = trace s ++ evs /\ (List.length (filter P evs) <= n)%nat.

End StageProperties.

(* ================================================================== *)
(** ** What a successful [send] has done *)

Section SendReport.

Context {W : Type} `{Imports W}.

(** [send], started in [s], has returned the template [t] in the state
    [s'], after the gate calls [ev1] and the plasma calls [ev2]: the three
    stages have run one after the other and each has returned [true]; the
    gate has had its four linkage calls answered first; the plasma stage
    has begun with the Plasma-Quota query for the template the gate left;
    [t] is the template the plasma stage left, with the hash computed by
    the encoder and the signature the key pair returned for the bytes of
    that hash; and the Ledger Writer has accepted [t]. *)
Definition send_report (z : Zenon W) (kp : KeyPair W)
    (cb : option (Function W)) (wait : bool) (s s' : State W)
    (ev1 ev2 : list Event) (t : AccountBlockTemplate) : Prop :=
  exists s1 s2 s3 a pk fb m w4,
    linkage_reads z kp (world s) a pk fb m w4 /\
    _checkAndSetFields z kp s = (Ok true, s1) /\
    trace s1 = trace s ++ ev1 /\
    (exists rest, ev1 = linkage_calls a ++ rest) /\
    _setDifficulty z cb wait s1 = (Ok true, s2) /\
    trace s2 = trace s1 ++ ev2 /\
    (exists rest, ev2 = EvGetRequiredPoW (quota_param (tx s1)) :: rest) /\
    _setHashAndSignature kp s2 = (Ok true, s3) /\
    t = tx s3 /\
    t = set_signature (signature t) (set_hash (hash t) (tx s2)) /\
    getTransactionHash (tx s2) = Ok (hash t) /\
    sign kp (Hash_getBytes (hash t)) (world s2) = (Ok (signature t), world s3) /\
    publishRawTransaction (ledger z) t (world s3) = (Ok tt, world s').

End SendReport.

(* ================================================================== *)
(** ** Reward history read models

    [RewardHistoryEntry] and [RewardHistoryList] with their [fromJson] and
    [toJson]. The fields are declared [number], but [fromJson] stores
    whatever the JSON value holds, so they are JS values here. *)

(** A value as [JSON.parse] yields it, and [undefined]. An object is the
    list of its properties, one entry per key. *)
#[warnings="-register-all"]
Inductive JsValue : Type :=
| JsUndefined
| JsNull
| JsBoolean (b : bool)
| JsNumber (n : Z)
| JsString (s : string)
| JsArray (items : list JsValue)
| JsObject (props : list (string * JsValue)).

(** The exception of a property access on [undefined] or [null], and of a
    call of something that is not a function (the message is the engine's
    and is left empty). *)
Definition TypeError : Exn := mkExn "TypeError" "".

Definition is_nullish (v : JsValue) : bool :=
  match v with
  | JsUndefined | JsNull => true
  | _ => false
  end.

Fixpoint lookup_prop (key : string) (props : list (string * JsValue)) : JsValue :=
  match props with
  | [] => JsUndefined
  | (k, v) :: rest => if String.eqb key k then v else lookup_prop key rest
  end.

(** [json.key] for the keys read below ([epoch], [znnAmount], [qsrAmount],
    [count], [list]): a TypeError on [undefined] and [null], the property
    of an object, [undefined] on every other value, which has no property
    of these names. *)
Definition get_prop (json : JsValue) (key : string) : Res JsValue :=
  match json with
  | JsUndefined | JsNull => Throw TypeError
  | JsObject props => Ok (lookup_prop key props)
  | _ => Ok JsUndefined
  end.

(** [array.map(f)] for an [f] that may throw: the elements are mapped in
    order and the first exception ends the call. *)
Fixpoint Array_map {A B : Type} (f : A -> Res B) (l : list A) : Res (list B) :=
  match l with
  | [] => Ok []
  | x :: rest =>
      match f x with
      | Throw e => Throw e
      | Ok y =>
          match Array_map f rest with
          | Throw e => Throw e
          | Ok ys => Ok (y :: ys)
          end
      end
  end.

Module RewardHistoryEntry.

Record t := mk { epoch : JsValue; znnAmount : JsValue; qsrAmount : JsValue }.

Definition fromJson (json : JsValue) : Res t :=
  match get_prop json "epoch" with
  | Throw e => Throw e
  | Ok epoch =>
      match get_prop json "znnAmount" with
      | Throw e => Throw e
      | Ok znnAmount =>
          match get_prop json "qsrAmount" with
          | Throw e => Throw e
          | Ok qsrAmount => Ok (mk epoch znnAmount qsrAmount)
          end
      end
  end.

Definition toJson (this : t) : JsValue :=
  JsObject [("epoch"%string, epoch this);
            ("znnAmount"%string, znnAmount this);
            ("qsrAmount"%string, qsrAmount this)].

End RewardHistoryEntry.

Module RewardHistoryList.

Record t := mk { count : JsValue; list : list RewardHistoryEntry.t }.

(** [json.list.map(RewardHistoryEntry.fromJson)]: only an array has a
    [map] to call. *)
Definition fromJson (json : JsValue) : Res t :=
  match get_prop json "count" with
  | Throw e => Throw e
  | Ok count =>
      match get_prop json "list" with
      | Throw e => Throw e
      | Ok (JsArray items) =>
          match Array_map RewardHistoryEntry.fromJson items with
          | Throw e => Throw e
          | Ok entries => Ok (mk count entries)
          end
      | Ok _ => Throw TypeError
      end
  end.

Definition toJson (this : t) : JsValue :=
  JsObject [("count"%string, count this);
            ("list"%string, JsArray (map RewardHistoryEntry.toJson (list this)))].

End RewardHistoryList.

(* ================================================================== *)
(** ** A concrete setting for examples *)

Module Sample.

(** A stand-in for the digest: 32 bytes computed from the input. *)
Definition toy_digest (b : Buffer) : Buffer :=
  bytesBE 32 (beZ b + Z.of_nat (List.length b)).

Definition zero32 : Buffer := repeat x00 32.

#[export] Instance imports : Imports unit := {
  digest := toy_digest;
  emptyHash_bytes := zero32;
  HashHeight_getBytes := fun hh =>
    match HashHeight.hash hh with
    | Hash.sentinel => zero32
    | Hash.object b => b
    end;
  Address_toString := fun a => string_of_list_byte (Address.core a);
  TokenStandard_size := 10%nat;
  longToBytes_undefined := Throw (mkExn "TypeError" "");
  userSend := 2;
  contractSend := 4;
  userReceive := 3;
  genesisReceive := 1;
  contractReceive := 5;
  generatePoW := fun _ _ w => (Ok "00000000deadbeef"%string, w)
}.

Definition addr1 : Address := Address.mk (repeat x00 19 ++ [x01]).
Definition addr2 : Address := Address.mk (repeat x00 19 ++ [x02]).
Definition zts : TokenStandard := TokenStandard.mk (repeat x0a 10).
Definition h7 : Hash := Hash.object (repeat x07 32).

(** A user-send template for 100 units from [addr1] to [addr2]. *)
Definition template : AccountBlockTemplate := {|
  version := 1;
  chainIdentifier := 1;
  blockType := Some 2;
  hash := emptyHash;
  previousHash := emptyHash;
  height := 1;
  momentumAcknowledged := HashHeight.mk h7 9;
  address := addr1;
  toAddress := addr2;
  amount := 100;
  tokenStandard := zts;
  fromBlockHash := emptyHash;
  data := [];
  fusedPlasma := 0;
  difficulty := 0;
  nonce := "0000000000000000";
  publicKey := [];
  signature := []
|}.

(** The same template with an amount of -24. *)
Definition negative_amount : AccountBlockTemplate :=
  {| version := 1; chainIdentifier := 1; blockType := Some 2;
     hash := emptyHash; previousHash := emptyHash; height := 1;
     momentumAcknowledged := HashHeight.mk h7 9;
     address := addr1; toAddress := addr2; amount := -24;
     tokenStandard := zts; fromBlockHash := emptyHash; data := [];
     fusedPlasma := 0; difficulty := 0; nonce := "0000000000000000";
     publicKey := []; signature := [] |}.

(** Two nonce strings for the same eight bytes. *)
Definition lower_nonce : AccountBlockTemplate := set_nonce "00000000deadbeef" template.
Definition upper_nonce : AccountBlockTemplate := set_nonce "00000000DEADBEEF" template.

Definition h5 : Hash := Hash.object (repeat x05 32).
Definition h6 : Hash := Hash.object (repeat x06 32).
Definition h9 : Hash := Hash.object (repeat x09 32).

(** A template of block type [bt] for the send block [from], carrying [d].
    Its [address] is still [addr2]: the gate will replace it by the address
    of the key pair. *)
Definition receive_as (bt : option Z) (from : Hash) (d : Buffer) : AccountBlockTemplate :=
  {| version := 1; chainIdentifier := 1; blockType := bt;
     hash := emptyHash; previousHash := emptyHash; height := 0;
     momentumAcknowledged := HashHeight.mk emptyHash 0;
     address := addr2; toAddress := addr1; amount := 0;
     tokenStandard := zts; fromBlockHash := from; data := d;
     fusedPlasma := 0; difficulty := 0; nonce := "";
     publicKey := []; signature := [] |}.

(** A user-receive template. *)
Definition receive (from : Hash) (d : Buffer) : AccountBlockTemplate :=
  receive_as (Some 3) from d.

Definition Buffer_eqb (a b : Buffer) : bool :=
  (List.length a =? List.length b)%nat && (leZ a =? leZ b).

(** The key pair of [addr1]. *)
Definition keyPair : KeyPair unit := {|
  getAddress := fun w => (Ok addr1, w);
  getPublicKey := fun w => (Ok [x01; x02; x03], w);
  sign := fun message w => (Ok (rev message), w)
|}.

(** A ledger where [addr1] has no block yet, the frontier momentum is [h7]
    at height 9, [h5] is a block sent to [addr1] and [h6] a block sent to
    [addr2]; no other hash resolves. *)
Definition ledgerApi : LedgerApi unit := {|
  getFrontierBlock := fun _ w => (Ok None, w);
  getFrontierMomentum := fun w => (Ok (Momentum.mk h7 9), w);
  getBlockByHash := fun h w =>
    match h with
    | Hash.sentinel => (Ok None, w)
    | Hash.object b =>
        if Buffer_eqb b (repeat x05 32) then (Ok (Some (AccountBlock.mk h 3 addr1)), w)
        else if Buffer_eqb b (repeat x06 32) then (Ok (Some (AccountBlock.mk h 4 addr2)), w)
        else (Ok None, w)
    end;
  publishRawTransaction := fun _ w => (Ok tt, w)
|}.

(** The same ledger seen from an account whose frontier block is
    [frontier]. *)
Definition ledgerApi_at (frontier : AccountBlock) : LedgerApi unit := {|
  getFrontierBlock := fun _ w => (Ok (Some frontier), w);
  getFrontierMomentum := getFrontierMomentum ledgerApi;
  getBlockByHash := getBlockByHash ledgerApi;
  publishRawTransaction := publishRawTransaction ledgerApi
|}.

(** Enough fused plasma: no proof-of-work required. *)
Definition fused : GetRequiredResponse :=
  {| availablePlasma := 21000; basePlasma := 21000; requiredDifficulty := 0 |}.

(** Not enough plasma: proof-of-work of difficulty 1000 required. *)
Definition unfused : GetRequiredResponse :=
  {| availablePlasma := 5000; basePlasma := 21000; requiredDifficulty := 1000 |}.

Definition zenon : Zenon unit :=
  mkZenon unit ledgerApi
    (mkEmbeddedApi unit (mkPlasmaApi unit (fun _ w => (Ok fused, w)))).

Definition zenon_pow : Zenon unit :=
  mkZenon unit ledgerApi
    (mkEmbeddedApi unit (mkPlasmaApi unit (fun _ w => (Ok unfused, w)))).

Definition zenon_at (frontier : AccountBlock) : Zenon unit :=
  mkZenon unit (ledgerApi_at frontier)
    (mkEmbeddedApi unit (mkPlasmaApi unit (fun _ w => (Ok fused, w)))).

(** An observer that returns, and one that throws. *)
Definition quiet : Function unit := fun _ _ w => (Ok tt, w).
Definition failing : Function unit :=
  fun _ _ w => (Throw (mkExn "Error" "observer failed"), w).

(** The pipeline starts with nothing logged. *)
Definition start (t : AccountBlockTemplate) : State unit := mkState t tt [].

End Sample.

(* ================================================================== *)
(** ** Bytes: lengths and round trips *)

Lemma Z_of_byte_of_Z (z : Z) : Z_of_byte (byte_of_Z z) = z mod 256.
Proof.
  unfold Z_of_byte, byte_of_Z.
  assert (Hr : 0 <= z mod 256 < 256) by (apply Z.mod_pos_bound; lia).
  destruct (Byte.of_N (Z.to_N (z mod 256))) as [b|] eqn:E.
  - apply Byte.to_of_N in E. rewrite E. rewrite Z2N.id; lia.
  - apply Byte.of_N_None_iff in E. lia.
Qed.

Lemma Z_of_byte_range (b : byte) : 0 <= Z_of_byte b < 256.
Proof.
  unfold Z_of_byte. pose proof (Byte.to_N_bounded b). lia.
Qed.

Lemma length_bytesLE (n : nat) : forall v, List.length (bytesLE n v) = n.
Proof.
  induction n as [|n IH]; intro v; simpl; [reflexivity | now rewrite IH].
Qed.

Lemma length_bytesBE (n : nat) (v : Z) : List.length (bytesBE n v) = n.
Proof.
  unfold bytesBE. rewrite length_rev. apply length_bytesLE.
Qed.

Lemma leZ_bytesLE (n : nat) : forall v, leZ (bytesLE n v) = v mod 256 ^ Z.of_nat n.
Proof.
  induction n as [|n IH]; intro v.
  - simpl. now rewrite Z.mod_1_r.
  - cbn [bytesLE leZ]. rewrite Z_of_byte_of_Z, IH.
    rewrite Nat2Z.inj_succ, Z.pow_succ_r by lia.
    rewrite Z.rem_mul_r by lia. reflexivity.
Qed.

Lemma beZ_bytesBE (n : nat) (v : Z) : beZ (bytesBE n v) = v mod 256 ^ Z.of_nat n.
Proof.
  unfold beZ, bytesBE. rewrite rev_involutive. apply leZ_bytesLE.
Qed.

(** Within range, the integer is read back from its big-endian bytes. *)
Lemma beZ_bytesBE_small (n : nat) (v : Z) :
  0 <= v < 256 ^ Z.of_nat n -> beZ (bytesBE n v) = v.
Proof.
  intro Hv. rewrite beZ_bytesBE. apply Z.mod_small. exact Hv.
Qed.

Lemma bytesBE_inj (n : nat) (a b : Z) :
  0 <= a < 256 ^ Z.of_nat n -> 0 <= b < 256 ^ Z.of_nat n ->
  bytesBE n a = bytesBE n b -> a = b.
Proof.
  intros Ha Hb E.
  rewrite <- (beZ_bytesBE_small n a Ha), <- (beZ_bytesBE_small n b Hb).
  now rewrite E.
Qed.

Lemma length_leftPadBytes (b : Buffer) (size : nat) :
  (List.length b <= size)%nat ->
  List.length (BytesUtils.leftPadBytes b size) = size.
Proof.
  intro Hle. unfold BytesUtils.leftPadBytes.
  rewrite length_app, repeat_length. lia.
Qed.

Lemma app_inv_length {A : Type} (a a' b b' : list A) :
  List.length a = List.length a' -> a ++ b = a' ++ b' -> a = a' /\ b = b'.
Proof.
  revert a'. induction a as [|x a IH]; intros [|y a'] Hlen E; simpl in *;
    try discriminate.
  - auto.
  - injection E as -> E. destruct (IH a' (eq_add_S _ _ Hlen) E) as [-> ->]. auto.
Qed.

Lemma append_empty_r (s : string) : (s ++ "")%string = s.
Proof.
  induction s as [|c s IH]; simpl; [reflexivity | now rewrite IH].
Qed.

Lemma leZ_app (a b : Buffer) :
  leZ (a ++ b) = leZ a + 256 ^ Z.of_nat (List.length a) * leZ b.
Proof.
  induction a as [|x a IH].
  - cbn [app leZ List.length]. change (Z.of_nat 0) with 0. rewrite Z.pow_0_r. lia.
  - cbn [app leZ List.length]. rewrite IH, Nat2Z.inj_succ, Z.pow_succ_r by lia. ring.
Qed.

Lemma leZ_zeros (k : nat) : leZ (repeat x00 k) = 0.
Proof.
  induction k as [|k IH]; simpl; [reflexivity | rewrite IH; reflexivity].
Qed.

(** Zero bytes in front do not change the integer a buffer denotes. *)
Lemma beZ_leftPadBytes (b : Buffer) (size : nat) :
  beZ (BytesUtils.leftPadBytes b size) = beZ b.
Proof.
  unfold beZ, BytesUtils.leftPadBytes.
  rewrite rev_app_distr, leZ_app, rev_repeat, leZ_zeros. lia.
Qed.

(* ================================================================== *)
(** ** The canonical encoder *)

Section Encoder.

Context {W : Type} `{Imports W}.

Lemma getTransactionHash_source_fields (t : AccountBlockTemplate) (bt : Z) :
  blockType t = Some bt ->
  getTransactionHash_source t = Ok (List.concat (canonical_fields bt t)).
Proof.
  intro Hbt. unfold getTransactionHash_source, longToBytes. rewrite Hbt.
  reflexivity.
Qed.

Lemma canonical_fields_lengths (t : AccountBlockTemplate) (bt : Z) :
  (forall b, List.length (digest b) = 32%nat) ->
  fully_populated t ->
  map (@List.length byte) (canonical_fields bt t)
  = [8; 8; 8; 32; 8; 32; 20; 20; 32; TokenStandard_size; 32; 32; 32; 8; 8; 8]%nat.
Proof.
  intros Hd [].
  unfold canonical_fields. cbn [map].
  rewrite !length_bytesBE, !Hd.
  change (repeat x00 (8 - List.length (Buffer_from_hex (nonce t)))
            ++ Buffer_from_hex (nonce t))
    with (BytesUtils.leftPadBytes (Buffer_from_hex (nonce t)) 8).
  rewrite length_leftPadBytes by assumption.
  repeat (f_equal; try assumption).
Qed.

(** C1. For a fully-populated template [getTransactionHash] concatenates
    exactly the sixteen fields of the specification, in its order
    (version, chainIdentifier, blockType, previousHash, height,
    momentumAcknowledged, address, toAddress, amount, tokenStandard,
    fromBlockHash, digest of the empty sequence, digest of data,
    fusedPlasma, difficulty, nonce), with the widths
    8, 8, 8, 32, 8, 32, 20, 20, 32, fixed, 32, 32, 32, 8, 8, 8; the integer
    fields read back big-endian as the field values, the nonce field is the
    decoded nonce with zero bytes in front; and the result is the digest of
    that concatenation. *)
Theorem getTransactionHash_layout (t : AccountBlockTemplate) :
  (forall b, List.length (digest b) = 32%nat) ->
  fully_populated t ->
  exists bt fields,
    blockType t = Some bt /\
    fields = canonical_fields bt t /\
    getTransactionHash_source t = Ok (List.concat fields) /\
    getTransactionHash t = Ok (Hash.object (digest (List.concat fields))) /\
    map (@List.length byte) fields
    = [8; 8; 8; 32; 8; 32; 20; 20; 32; TokenStandard_size; 32; 32; 32; 8; 8; 8]%nat /\
    map beZ [nth 0 fields []; nth 1 fields []; nth 2 fields []; nth 4 fields [];
             nth 8 fields []; nth 13 fields []; nth 14 fields []; nth 15 fields []]
    = [version t; chainIdentifier t; bt; height t; amount t; fusedPlasma t;
       difficulty t; beZ (Buffer_from_hex (nonce t))].
Proof.
  intros Hd Hfp.
  destruct (fp_blockType t Hfp) as (bt & Hbt & Hbtr).
  exists bt, (canonical_fields bt t).
  split; [exact Hbt|]. split; [reflexivity|].
  split; [now apply getTransactionHash_source_fields|].
  split.
  { unfold getTransactionHash. now rewrite (getTransactionHash_source_fields t bt Hbt). }
  split; [now apply canonical_fields_lengths|].
  destruct Hfp.
  unfold canonical_fields. cbn [nth map].
  change (repeat x00 (8 - List.length (Buffer_from_hex (nonce t)))
            ++ Buffer_from_hex (nonce t))
    with (BytesUtils.leftPadBytes (Buffer_from_hex (nonce t)) 8).
  rewrite beZ_leftPadBytes.
  rewrite !beZ_bytesBE_small; [reflexivity | assumption ..].
Qed.

(** What the amount field denotes as an unsigned integer: the amount
    modulo 2^256. *)
Lemma amountBytes_value (t : AccountBlockTemplate) :
  beZ (BytesUtils.numberToBytes (amount t) 32) = amount t mod 2 ^ 256.
Proof.
  unfold BytesUtils.numberToBytes. now rewrite beZ_bytesBE.
Qed.

Lemma Ok_inj {A : Type} (a b : A) : Ok a = Ok b -> a = b.
Proof. congruence. Qed.

Lemma cons_eq_inv {A : Type} (x y : A) (l1 l2 : list A) :
  x :: l1 = y :: l2 -> x = y /\ l1 = l2.
Proof. intro E. injection E. auto. Qed.

Lemma concat_fields_inj (l1 l2 : list Buffer) :
  map (@List.length byte) l1 = map (@List.length byte) l2 ->
  List.concat l1 = List.concat l2 -> l1 = l2.
Proof.
  revert l2. induction l1 as [|a l1 IH]; intros [|b l2] Hlen E;
    try discriminate; [reflexivity|].
  cbn in Hlen, E. injection Hlen as Hab Hrest.
  destruct (app_inv_length _ _ _ _ Hab E) as [-> E'].
  f_equal. now apply IH.
Qed.

Lemma getTransactionHash_source_deterministic (t1 t2 : AccountBlockTemplate) :
  same_field_values t1 t2 ->
  getTransactionHash_source t1 = getTransactionHash_source t2.
Proof.
  intros (H1 & H2 & H3 & H4 & H5 & H6 & H7 & H8 & H9 & H10 & H11 & H12 & H13 & H14 & H15).
  unfold getTransactionHash_source.
  now rewrite H1, H2, H3, H4, H5, H6, H7, H8, H9, H10, H11, H12, H13, H14, H15.
Qed.

Lemma source_determines_encoded_values (t1 t2 : AccountBlockTemplate) :
  (forall b, List.length (digest b) = 32%nat) ->
  fully_populated t1 -> fully_populated t2 ->
  getTransactionHash_source t1 = getTransactionHash_source t2 ->
  same_encoded_values t1 t2.
Proof.
  intros Hd Hf1 Hf2 E.
  destruct (fp_blockType t1 Hf1) as (b1 & Hb1 & Hr1).
  destruct (fp_blockType t2 Hf2) as (b2 & Hb2 & Hr2).
  rewrite (getTransactionHash_source_fields t1 b1 Hb1),
          (getTransactionHash_source_fields t2 b2 Hb2) in E.
  apply Ok_inj in E.
  apply concat_fields_inj in E.
  2:{ rewrite (canonical_fields_lengths t1 b1 Hd Hf1).
      now rewrite (canonical_fields_lengths t2 b2 Hd Hf2). }
  unfold canonical_fields in E.
  repeat match goal with
         | E : _ :: _ = _ :: _ |- _ =>
             apply cons_eq_inv in E;
             let E1 := fresh "F" in destruct E as [E1 E]
         end.
  destruct Hf1, Hf2.
  repeat match goal with
         | F : bytesBE 8 _ = bytesBE 8 _ |- _ =>
             apply bytesBE_inj in F;
             [ | change (256 ^ Z.of_nat 8) with (2 ^ 64); assumption ..]
         | F : bytesBE 32 _ = bytesBE 32 _ |- _ =>
             apply bytesBE_inj in F;
             [ | change (256 ^ Z.of_nat 32) with (2 ^ 256); assumption ..]
         end.
  unfold same_encoded_values, BytesUtils.leftPadBytes.
  destruct (address t1), (address t2), (toAddress t1), (toAddress t2),
           (tokenStandard t1), (tokenStandard t2).
  cbn [Address.core TokenStandard.core] in *. subst.
  rewrite Hb1, Hb2.
  repeat split; try assumption; try reflexivity.
Qed.

Lemma encoded_values_determine_source (t1 t2 : AccountBlockTemplate) :
  same_encoded_values t1 t2 ->
  getTransactionHash_source t1 = getTransactionHash_source t2.
Proof.
  intros (H1 & H2 & H3 & H4 & H5 & H6 & H7 & H8 & H9 & H10 & H11 & H12 & H13 & H14 & H15).
  unfold getTransactionHash_source, Hash_digest. cbn [Hash_getBytes].
  now rewrite H1, H2, H3, H4, H5, H6, H7, H8, H9, H10, H11, H12, H13, H14, H15.
Qed.

(** C7, as amended. The encoding is deterministic: templates with the same
    field values have the same byte sequence and the same hash. On
    fully-populated templates the byte sequence determines, and is
    determined by, the fixed-width fields, the digest of [data] and the
    eight bytes the nonce string decodes to; it does not determine the
    nonce string. *)
Theorem canonical_encoding_determinism (t1 t2 : AccountBlockTemplate) :
  (forall b, List.length (digest b) = 32%nat) ->
  fully_populated t1 -> fully_populated t2 ->
  (same_field_values t1 t2 ->
     getTransactionHash_source t1 = getTransactionHash_source t2 /\
     getTransactionHash t1 = getTransactionHash t2) /\
  (getTransactionHash_source t1 = getTransactionHash_source t2 <->
     same_encoded_values t1 t2) /\
  (getTransactionHash_source t1 = getTransactionHash_source t2 ->
     getTransactionHash t1 = getTransactionHash t2).
Proof.
  intros Hd Hf1 Hf2. split; [intro Hs; split | split; [split|]].
  - now apply getTransactionHash_source_deterministic.
  - unfold getTransactionHash.
    now rewrite (getTransactionHash_source_deterministic t1 t2).
  - now apply source_determines_encoded_values.
  - apply encoded_values_determine_source.
  - intro E. unfold getTransactionHash. now rewrite E.
Qed.

End Encoder.

(* ================================================================== *)
(** ** The pipeline: running it step by step *)

Ltac unfold_pipeline :=
  unfold send, _setHashAndSignature, _setDifficulty, _checkAndSetFields,
    receive_rules, difficulty_guard, _autofillTransactionParameters, _getTransactionSignature, optional_call,
    bind, call, assign, getTx, ret, throw, lift in *.

(** Case analysis on the outcome of the next collaborator call. *)
Ltac destruct_call H :=
  match type of H with
  | context [let (_, _) := ?c in _] =>
      lazymatch c with
      | context [let (_, _) := _ in _] => fail
      | context [match _ with _ => _ end] => fail
      | context [if _ then _ else _] => fail
      | _ => let E := fresh "E" in destruct c as [[?|?] ?] eqn:E
      end
  end.

Ltac inv_run H := injection H as <- <-.

Section Pipeline.

Context {W : Type} `{Imports W}.

Lemma autofill_run (z : Zenon W) (s : State W) fb w1 m w2 :
  getFrontierBlock (ledger z) (address (tx s)) (world s) = (Ok fb, w1) ->
  getFrontierMomentum (ledger z) w1 = (Ok m, w2) ->
  _autofillTransactionParameters z s
  = (Ok tt,
     mkState
       (set_momentumAcknowledged
          (HashHeight.mk (Momentum.hash m) (Momentum.height m))
          (set_previousHash
             (match fb with Some b => AccountBlock.hash b | None => emptyHash end)
             (set_height
                (match fb with
                 | Some b => js_add (AccountBlock.height b) 1
                 | None => 1
                 end)
                (tx s))))
       w2
       (trace s ++ [EvGetFrontierBlock (address (tx s)); EvGetFrontierMomentum])).
Proof.
  intros E1 E2. unfold_pipeline. cbn [tx world trace].
  rewrite E1. cbn [tx world trace]. rewrite E2. cbn [tx world trace].
  now rewrite <- app_assoc.
Qed.

Lemma double_of_Z_exact (x : Z) : Z.abs x <= 2 ^ 53 -> double_of_Z x = x.
Proof.
  intro Hx. unfold double_of_Z. cbv zeta.
  destruct (Z.ltb_spec (Z.abs x) (2 ^ 53)) as [_|Hge]; [reflexivity|].
  assert (Hcase : x = 2 ^ 53 \/ x = - 2 ^ 53) by lia.
  destruct Hcase as [-> | ->]; reflexivity.
Qed.

(** Up to 2^53 the sum of two integers is exact. *)
Lemma js_add_exact (a b : Z) : Z.abs (a + b) <= 2 ^ 53 -> js_add a b = a + b.
Proof. apply double_of_Z_exact. Qed.

(** C4, as amended. Chain-linkage autofill, for the address of the
    template: whatever the outcome, no field other than [height],
    [previousHash] and [momentumAcknowledged] changes; once the Ledger
    Reader has answered the frontier query, [height] is 1 and
    [previousHash] the empty-hash sentinel if there is no frontier block,
    and otherwise [previousHash] is [frontier.hash] and [height] is the JS
    sum [frontier.height + 1], which is the integer [frontier.height + 1]
    for every frontier height from 0 to below 2^53; and once the reader has
    answered the momentum query the stage returns, with
    [momentumAcknowledged] the hash and height of the frontier momentum. *)
Theorem autofill_sets_linkage (z : Zenon W) (s : State W) r s1 :
  _autofillTransactionParameters z s = (r, s1) ->
  linkage_frame (tx s) (tx s1) /\
  forall fb w1,
    getFrontierBlock (ledger z) (address (tx s)) (world s) = (Ok fb, w1) ->
    (fb = None -> height (tx s1) = 1 /\ previousHash (tx s1) = emptyHash) /\
    (forall b, fb = Some b ->
       height (tx s1) = js_add (AccountBlock.height b) 1 /\
       (0 <= AccountBlock.height b < 2 ^ 53 ->
        height (tx s1) = AccountBlock.height b + 1) /\
       previousHash (tx s1) = AccountBlock.hash b) /\
    forall m w2,
      getFrontierMomentum (ledger z) w1 = (Ok m, w2) ->
      r = Ok tt /\
      momentumAcknowledged (tx s1)
      = HashHeight.mk (Momentum.hash m) (Momentum.height m) /\
      world s1 = w2 /\
      trace s1
      = trace s ++ [EvGetFrontierBlock (address (tx s)); EvGetFrontierMomentum].
Proof.
  intro Hrun. split.
  - unfold_pipeline. cbn [tx world trace] in Hrun.
    repeat (destruct_call Hrun; cbn [tx world trace] in Hrun);
      inv_run Hrun; cbn; repeat split; reflexivity.
  - intros fb w1 E1.
    assert (Hlink :
      height (tx s1)
        = match fb with Some b => js_add (AccountBlock.height b) 1 | None => 1 end /\
      previousHash (tx s1)
        = match fb with Some b => AccountBlock.hash b | None => emptyHash end).
    { unfold_pipeline. cbn [tx world trace] in Hrun.
      rewrite E1 in Hrun. cbn [tx world trace] in Hrun.
      destruct_call Hrun; cbn [tx world trace] in Hrun; inv_run Hrun;
        cbn; split; reflexivity. }
    destruct Hlink as [Hh Hp].
    split; [intros ->; now split|].
    split.
    { intros b ->. split; [exact Hh|]. split; [|exact Hp].
      intro Hb. rewrite Hh. apply js_add_exact. lia. }
    intros m w2 E2.
    rewrite (autofill_run z s fb w1 m w2 E1 E2) in Hrun.
    inv_run Hrun. cbn. repeat split; reflexivity.
Qed.

(* ------------------------------------------------------------------ *)
(** *** The validation gate *)

Lemma receive_rules_run (z : Zenon W) (t : AccountBlockTemplate) (s : State W) :
  receive_rules z t s
  = if is_emptyHash (fromBlockHash t) then (Throw JsError, s)
    else
      let (r, w5) := getBlockByHash (ledger z) (fromBlockHash t) (world s) in
      let s5 := mkState (tx s) w5 (trace s ++ [EvGetBlockByHash (fromBlockHash t)]) in
      match r with
      | Throw e => (Throw e, s5)
      | Ok None => (Throw JsError, s5)
      | Ok (Some sb) =>
          if negb (String.eqb (Address_toString (AccountBlock.toAddress sb))
                              (Address_toString (address t)))
          then (Throw JsError, s5)
          else if (0 <? List.length (data t))%nat then (Throw JsError, s5)
          else (Ok tt, s5)
      end.
Proof.
  unfold receive_rules, bind, call, throw, ret.
  destruct (is_emptyHash (fromBlockHash t)); [reflexivity|].
  destruct (getBlockByHash (ledger z) (fromBlockHash t) (world s)) as [[[sb|]|e] w5];
    try reflexivity.
  destruct (negb _); [reflexivity|].
  destruct (0 <? _)%nat; reflexivity.
Qed.

Lemma difficulty_guard_run (t : AccountBlockTemplate) (s : State W) :
  difficulty_guard t s
  = if (0 <? difficulty t) && String.eqb (nonce t) ""
    then (Throw JsError, s) else (Ok tt, s).
Proof.
  unfold difficulty_guard, throw, ret. now destruct (_ && _).
Qed.

(** Once key material and Ledger Reader have answered, the gate is left
    with the block-type rules and the difficulty guard. *)
Lemma gate_after_linkage (z : Zenon W) (kp : KeyPair W) (s : State W) a pk fb m w4 :
  linkage_reads z kp (world s) a pk fb m w4 ->
  _checkAndSetFields z kp s
  = ((if isSendBlock (blockType (tx s)) then ret tt
      else receive_rules z (linked a pk fb m (tx s))) ;;
     difficulty_guard (linked a pk fb m (tx s)) ;;
     ret true)
      (mkState (linked a pk fb m (tx s)) w4 (trace s ++ linkage_calls a)).
Proof.
  intros (w1 & w2 & w3 & E1 & E2 & E3 & E4).
  unfold _checkAndSetFields, _autofillTransactionParameters.
  unfold bind at 1. unfold call at 1. rewrite E1.
  unfold bind at 1. unfold assign at 1. cbn [tx world trace].
  unfold bind at 1. unfold call at 1. cbn [tx world trace]. rewrite E2.
  unfold bind at 1. unfold assign at 1. cbn [tx world trace].
  unfold bind at 1. unfold bind at 1. unfold getTx at 1. cbn [tx world trace].
  unfold bind at 1. unfold call at 1. cbn [tx world trace].
  change (address (set_publicKey pk (set_address a (tx s)))) with a.
  rewrite E3.
  unfold bind at 1. unfold assign at 1. cbn [tx world trace].
  unfold bind at 1. unfold assign at 1. cbn [tx world trace].
  unfold bind at 1. unfold call at 1. cbn [tx world trace]. rewrite E4.
  unfold assign at 1. cbn [tx world trace].
  unfold bind at 1. unfold getTx at 1. cbn [tx world trace].
  unfold linkage_calls. rewrite <- !app_assoc. reflexivity.
Qed.

Lemma is_emptyHash_true (h : Hash) : is_emptyHash h = true <-> h = emptyHash.
Proof. destruct h; cbn; split; intro E; try reflexivity; discriminate. Qed.

Lemma is_emptyHash_false (h : Hash) : is_emptyHash h = false <-> h <> emptyHash.
Proof.
  destruct h; cbn; split; intro E; try reflexivity; try discriminate.
  now elim E.
Qed.

Lemma nonempty_length {A : Type} (l : list A) :
  (0 <? List.length l)%nat = true <-> l <> [].
Proof.
  destruct l; cbn; split; intro E; try discriminate; try reflexivity.
  now elim E.
Qed.

(** A gate that returns has had its first four calls answered. *)
Lemma gate_ok_linkage (z : Zenon W) (kp : KeyPair W) (s : State W) b s' :
  _checkAndSetFields z kp s = (Ok b, s') ->
  exists a pk fb m w4, linkage_reads z kp (world s) a pk fb m w4.
Proof.
  intro Hrun.
  unfold _checkAndSetFields, _autofillTransactionParameters,
    bind, call, assign, getTx in Hrun.
  cbn [tx world trace] in Hrun.
  repeat (destruct_call Hrun; cbn [tx world trace] in Hrun; try discriminate).
  unfold linkage_reads. eauto 12.
Qed.

Lemma send_rule_run (z : Zenon W) (kp : KeyPair W) (s : State W) a pk fb m w4 :
  isSendBlock (blockType (tx s)) = true ->
  linkage_reads z kp (world s) a pk fb m w4 ->
  _checkAndSetFields z kp s
  = (guard_verdict (tx s),
     mkState (linked a pk fb m (tx s)) w4 (trace s ++ linkage_calls a)).
Proof.
  intros Hsend Hl. rewrite (gate_after_linkage z kp s a pk fb m w4 Hl), Hsend.
  unfold bind, ret. rewrite difficulty_guard_run. unfold guard_verdict.
  cbn [difficulty nonce linked set_momentumAcknowledged set_previousHash
       set_height set_publicKey set_address].
  now destruct (_ && _).
Qed.

Lemma receive_rules_apply (z : Zenon W) (kp : KeyPair W) (s : State W) a pk fb m w4 :
  isSendBlock (blockType (tx s)) = false ->
  linkage_reads z kp (world s) a pk fb m w4 ->
  receive_rules_enforced z kp s a pk fb m w4.
Proof.
  intros Hsend Hl. unfold receive_rules_enforced. cbv zeta.
  pose proof (gate_after_linkage z kp s a pk fb m w4 Hl) as Hg.
  rewrite Hsend in Hg. unfold bind at 1 in Hg. rewrite receive_rules_run in Hg.
  cbn [fromBlockHash data address tx world trace linked set_momentumAcknowledged
       set_previousHash set_height set_publicKey set_address] in Hg.
  fold (linked a pk fb m (tx s)) in Hg.
  split.
  - intro Hh. apply is_emptyHash_true in Hh. rewrite Hg, Hh. reflexivity.
  - intro Hh. apply is_emptyHash_false in Hh. rewrite Hh in Hg.
    intros r w5 E5. rewrite E5 in Hg. rewrite <- !app_assoc in Hg.
    repeat split.
    + intros ->. exact Hg.
    + intros sb -> Hneq. apply String.eqb_neq in Hneq. rewrite Hneq in Hg. exact Hg.
    + intros sb -> Hdata. apply nonempty_length in Hdata. rewrite Hdata in Hg.
      rewrite Hg. now destruct (negb _).
    + intros sb -> Heq Hdata. apply String.eqb_eq in Heq. rewrite Heq, Hdata in Hg.
      cbn [negb List.length Nat.ltb Nat.leb] in Hg.
      unfold bind, ret in Hg. rewrite difficulty_guard_run in Hg.
      cbn [difficulty nonce linked set_momentumAcknowledged set_previousHash
           set_height set_publicKey set_address] in Hg.
      rewrite Hg. unfold guard_verdict. now destruct (_ && _).
    + intros e ->. exact Hg.
Qed.

(** A gate that lets a non-send template through has resolved its
    [fromBlockHash] to a block for the right address, and seen no data. *)
Lemma gate_ok_receive (z : Zenon W) (kp : KeyPair W) (s : State W) b s' :
  isSendBlock (blockType (tx s)) = false ->
  _checkAndSetFields z kp s = (Ok b, s') ->
  fromBlockHash (tx s) <> emptyHash /\
  data (tx s) = [] /\
  exists a pk fb m w4 sb w5,
    linkage_reads z kp (world s) a pk fb m w4 /\
    getBlockByHash (ledger z) (fromBlockHash (tx s)) w4 = (Ok (Some sb), w5) /\
    Address_toString (AccountBlock.toAddress sb) = Address_toString a.
Proof.
  intros Hsend Hrun.
  destruct (gate_ok_linkage z kp s b s' Hrun) as (a & pk & fb & m & w4 & Hl).
  destruct (receive_rules_apply z kp s a pk fb m w4 Hsend Hl) as [Ha Hrest].
  destruct (is_emptyHash (fromBlockHash (tx s))) eqn:Hh.
  { apply is_emptyHash_true in Hh. rewrite (Ha Hh) in Hrun. discriminate. }
  apply is_emptyHash_false in Hh. split; [exact Hh|].
  destruct (getBlockByHash (ledger z) (fromBlockHash (tx s)) w4) as [r w5] eqn:E5.
  destruct (Hrest Hh r w5 eq_refl) as (Hb & Hc & Hd & _ & He).
  destruct r as [[sb|]|e].
  - destruct (data (tx s)) as [|x l] eqn:Hdata.
    + split; [reflexivity|].
      exists a, pk, fb, m, w4, sb, w5. repeat split; try assumption.
      destruct (string_dec (Address_toString (AccountBlock.toAddress sb))
                           (Address_toString a)) as [Heq|Hneq]; [exact Heq|].
      rewrite (Hc sb eq_refl Hneq) in Hrun. discriminate.
    + rewrite (Hd sb eq_refl) in Hrun by discriminate. discriminate.
  - rewrite (Hb eq_refl) in Hrun. discriminate.
  - rewrite (He e eq_refl) in Hrun. discriminate.
Qed.

Lemma receive_type_not_send (bt : Z) :
  NoDup [userSend; contractSend; userReceive; genesisReceive; contractReceive] ->
  isReceiveBlock bt = true -> isSendBlock (Some bt) = false.
Proof.
  intros Hnd Hrecv.
  unfold isReceiveBlock, isSendBlock, includes in *. cbn [existsb] in *.
  apply NoDup_cons_iff in Hnd. destruct Hnd as [Hus Hnd].
  apply NoDup_cons_iff in Hnd. destruct Hnd as [Hcs _].
  cbn [In] in Hus, Hcs.
  destruct (Z.eqb_spec bt userSend) as [->|_].
  - exfalso.
    destruct (Z.eqb_spec userSend userReceive) as [E|_]; [symmetry in E; tauto|].
    destruct (Z.eqb_spec userSend genesisReceive) as [E|_]; [symmetry in E; tauto|].
    destruct (Z.eqb_spec userSend contractReceive) as [E|_]; [symmetry in E; tauto|].
    discriminate.
  - destruct (Z.eqb_spec bt contractSend) as [->|_]; [|reflexivity].
    exfalso.
    destruct (Z.eqb_spec contractSend userReceive) as [E|_]; [symmetry in E; tauto|].
    destruct (Z.eqb_spec contractSend genesisReceive) as [E|_]; [symmetry in E; tauto|].
    destruct (Z.eqb_spec contractSend contractReceive) as [E|_]; [symmetry in E; tauto|].
    discriminate.
Qed.

Lemma not_send_variant (bt : option Z) :
  bt <> Some userSend -> bt <> Some contractSend -> isSendBlock bt = false.
Proof.
  intros H1 H2. destruct bt as [n|]; [|reflexivity].
  unfold isSendBlock, includes. cbn [existsb].
  destruct (Z.eqb_spec n userSend) as [->|_]; [now elim H1|].
  destruct (Z.eqb_spec n contractSend) as [->|_]; [now elim H2|].
  reflexivity.
Qed.

(** C3. For a receive-type template the gate fails when [fromBlockHash] is
    the empty-hash sentinel, when the Ledger Reader has no block for
    [fromBlockHash], and when [data] is not empty, whatever else happens;
    and once key material and Ledger Reader have answered, each of the four
    rules, the [toAddress] rule included, throws at its place
    ([receive_rules_enforced]; the address compared is the one the gate has
    just taken from the key pair, by its string form). For a send-type
    template none of the four is looked at: the gate goes from linkage to
    the difficulty guard without a lookup. *)
Theorem receive_block_gating (z : Zenon W) (kp : KeyPair W) (s : State W) (bt : Z) :
  NoDup [userSend; contractSend; userReceive; genesisReceive; contractReceive] ->
  blockType (tx s) = Some bt ->
  (isReceiveBlock bt = true ->
     (forall r s',
        _checkAndSetFields z kp s = (r, s') ->
        fromBlockHash (tx s) = emptyHash \/
        (forall w, exists w',
           getBlockByHash (ledger z) (fromBlockHash (tx s)) w = (Ok None, w')) \/
        data (tx s) <> [] ->
        exists e, r = Throw e) /\
     (forall a pk fb m w4,
        linkage_reads z kp (world s) a pk fb m w4 ->
        receive_rules_enforced z kp s a pk fb m w4)) /\
  (isSendBlock (Some bt) = true ->
     forall a pk fb m w4,
       linkage_reads z kp (world s) a pk fb m w4 ->
       _checkAndSetFields z kp s
       = (guard_verdict (tx s),
          mkState (linked a pk fb m (tx s)) w4 (trace s ++ linkage_calls a))).
Proof.
  intros Hnd Hbt. split.
  - intro Hrecv.
    assert (Hsend : isSendBlock (blockType (tx s)) = false)
      by (rewrite Hbt; now apply receive_type_not_send).
    split.
    + intros r s' Hrun Hviol. destruct r as [b|e]; [|now exists e].
      exfalso.
      destruct (gate_ok_receive z kp s b s' Hsend Hrun)
        as (Hh & Hdata & a & pk & fb & m & w4 & sb & w5 & Hl & E5 & Heq).
      destruct Hviol as [Hv|[Hv|Hv]].
      * now apply Hh.
      * destruct (Hv w4) as [w' E']. rewrite E' in E5. discriminate.
      * now apply Hv.
    + intros a pk fb m w4 Hl. now apply receive_rules_apply.
  - intros Hsend a pk fb m w4 Hl. apply send_rule_run; [|exact Hl].
    now rewrite Hbt.
Qed.

(** C10. A block type that is neither of the two send variants, be it a
    receive variant, a number outside the enumeration or a missing value,
    makes [isSendBlock] false, and the gate then enforces the receive
    rules on the template. *)
Theorem non_send_block_type_gets_receive_rules
    (z : Zenon W) (kp : KeyPair W) (s : State W) :
  blockType (tx s) <> Some userSend ->
  blockType (tx s) <> Some contractSend ->
  isSendBlock (blockType (tx s)) = false /\
  forall a pk fb m w4,
    linkage_reads z kp (world s) a pk fb m w4 ->
    receive_rules_enforced z kp s a pk fb m w4.
Proof.
  intros H1 H2.
  assert (Hsend : isSendBlock (blockType (tx s)) = false)
    by now apply not_send_variant.
  split; [exact Hsend|].
  intros a pk fb m w4 Hl. now apply receive_rules_apply.
Qed.

Lemma send_aborts_with_gate (z : Zenon W) (kp : KeyPair W) cb wait (s : State W) e s' :
  _checkAndSetFields z kp s = (Throw e, s') ->
  send z kp cb wait s = (Throw e, s').
Proof.
  intro Hrun. unfold send. unfold bind at 1. now rewrite Hrun.
Qed.

Lemma guard_verdict_throw (t : AccountBlockTemplate) (e : Exn) :
  guard_verdict t = Throw e -> e = JsError.
Proof.
  unfold guard_verdict. destruct (_ && _); congruence.
Qed.

(** C8, as amended. A failure of any of the gate's own rules aborts the
    pipeline with the value [Error()]: a plain Error without a message, the
    same for every rule, so that the thrown value does not tell which rule
    was violated. (Key material and Ledger Reader are taken to answer.) *)
Theorem validation_failure_is_plain_Error
    (z : Zenon W) (kp : KeyPair W) (s : State W) a pk fb m w4 o w5 e s' :
  linkage_reads z kp (world s) a pk fb m w4 ->
  getBlockByHash (ledger z) (fromBlockHash (tx s)) w4 = (Ok o, w5) ->
  _checkAndSetFields z kp s = (Throw e, s') ->
  e = JsError /\
  exn_name e = "Error"%string /\
  exn_message e = ""%string /\
  forall cb wait, send z kp cb wait s = (Throw e, s').
Proof.
  intros Hl E5 Hrun.
  assert (He : e = JsError).
  { destruct (isSendBlock (blockType (tx s))) eqn:Hsend.
    - rewrite (send_rule_run z kp s a pk fb m w4 Hsend Hl) in Hrun.
      injection Hrun as Hv _. now apply guard_verdict_throw in Hv.
    - destruct (receive_rules_apply z kp s a pk fb m w4 Hsend Hl) as [Ha Hrest].
      destruct (is_emptyHash (fromBlockHash (tx s))) eqn:Hh.
      { apply is_emptyHash_true in Hh. rewrite (Ha Hh) in Hrun. congruence. }
      apply is_emptyHash_false in Hh.
      destruct (Hrest Hh (Ok o) w5 E5) as (Hb & Hc & Hd & Hpass & _).
      destruct o as [sb|]; [|rewrite (Hb eq_refl) in Hrun; congruence].
      destruct (string_dec (Address_toString (AccountBlock.toAddress sb))
                           (Address_toString a)) as [Heq|Hneq];
        [|rewrite (Hc sb eq_refl Hneq) in Hrun; congruence].
      destruct (data (tx s)) as [|x l] eqn:Hdata.
      + rewrite (Hpass sb eq_refl Heq eq_refl) in Hrun.
        injection Hrun as Hv _. now apply guard_verdict_throw in Hv.
      + rewrite (Hd sb eq_refl) in Hrun by discriminate. congruence. }
  subst e. repeat split.
  intros cb wait. now apply send_aborts_with_gate.
Qed.

(* ------------------------------------------------------------------ *)
(** *** The plasma policy *)

Lemma optional_call_run (cb : option (Function W)) (status : PowStatus) (s : State W) :
  optional_call cb status s
  = let (r, w) := observe cb status (world s) in
    (r, mkState (tx s) w (trace s ++ observer_calls cb status)).
Proof.
  destruct cb as [f|]; cbn.
  - reflexivity.
  - rewrite app_nil_r. now destruct s.
Qed.

Lemma setDifficulty_fused (z : Zenon W) cb wait (s : State W) resp w1 :
  getRequiredPoWForAccountBlock (plasma (embedded z)) (quota_param (tx s)) (world s)
  = (Ok resp, w1) ->
  requiredDifficulty resp = 0 ->
  _setDifficulty z cb wait s
  = (Ok true,
     mkState
       (set_nonce "0000000000000000"
          (set_difficulty 0 (set_fusedPlasma (basePlasma resp) (tx s))))
       w1 (trace s ++ [EvGetRequiredPoW (quota_param (tx s))])).
Proof.
  intros E1 Hrd.
  unfold _setDifficulty, bind, call, assign, getTx, ret.
  cbn [tx world trace]. fold (quota_param (tx s)). rewrite E1, Hrd.
  reflexivity.
Qed.

Lemma setDifficulty_pow (z : Zenon W) cb wait (s : State W) resp w1 :
  getRequiredPoWForAccountBlock (plasma (embedded z)) (quota_param (tx s)) (world s)
  = (Ok resp, w1) ->
  requiredDifficulty resp <> 0 ->
  _setDifficulty z cb wait s
  = let t1 := pow_funded resp (tx s) in
    let powData := _getPoWData (tx s) in
    let rd := requiredDifficulty resp in
    let tr1 := trace s ++ [EvGetRequiredPoW (quota_param (tx s))] in
    let (r2, w2) := observe cb generating w1 in
    let tr2 := tr1 ++ observer_calls cb generating in
    match r2 with
    | Throw e => (Throw e, mkState t1 w2 tr2)
    | Ok _ =>
        let (r3, w3) := generatePoW powData rd w2 in
        let tr3 := tr2 ++ [EvGeneratePoW powData rd] in
        match r3 with
        | Throw e => (Throw e, mkState t1 w3 tr3)
        | Ok n =>
            let (r4, w4) := observe cb done w3 in
            (match r4 with Throw e => Throw e | Ok _ => Ok true end,
             mkState (set_nonce n t1) w4 (tr3 ++ observer_calls cb done))
        end
    end.
Proof.
  intros E1 Hrd. apply Z.eqb_neq in Hrd.
  unfold _setDifficulty.
  unfold bind at 1. unfold getTx at 1.
  unfold bind at 1. unfold bind at 1. unfold call at 1.
  fold (quota_param (tx s)). rewrite E1, Hrd. cbn [negb].
  unfold bind at 1. unfold assign at 1. cbn [tx world trace].
  unfold bind at 1. unfold assign at 1. cbn [tx world trace].
  unfold bind at 1. unfold getTx at 1. cbn [tx world trace].
  unfold bind at 1. rewrite optional_call_run. cbn [tx world trace].
  fold (pow_funded resp (tx s)).
  change (_getPoWData (pow_funded resp (tx s))) with (_getPoWData (tx s)).
  change (difficulty (pow_funded resp (tx s))) with (requiredDifficulty resp).
  cbv zeta.
  destruct (observe cb generating w1) as [[[]|e] w2]; [|reflexivity].
  unfold bind at 1. unfold getTx at 1. cbn [tx world trace].
  unfold bind at 1. unfold call at 1. cbn [tx world trace].
  change (difficulty (pow_funded resp (tx s))) with (requiredDifficulty resp).
  destruct (generatePoW (_getPoWData (tx s)) (requiredDifficulty resp) w2)
    as [[n|e] w3]; [|reflexivity].
  unfold bind at 1. unfold assign at 1. cbn [tx world trace].
  rewrite optional_call_run. cbn [tx world trace]. rewrite append_empty_r.
  destruct (observe cb done w3) as [[[]|e] w4]; reflexivity.
Qed.

Lemma getPoWData_bytes (t : AccountBlockTemplate) :
  _getPoWData t
  = Hash_digest (Address_getBytes (address t) ++ Hash_getBytes (previousHash t)).
Proof.
  unfold _getPoWData, Buffer_concat. cbn [List.concat]. now rewrite app_nil_r.
Qed.

(** C2. With the Plasma-Quota answer in hand: if [requiredDifficulty] is 0,
    [_setDifficulty] returns with [fusedPlasma = basePlasma],
    [difficulty = 0] and the all-zero nonce, having called nothing but the
    Plasma-Quota collaborator (so never the PoW Solver); if it is not 0 (in
    particular if it is positive), [fusedPlasma = availablePlasma] and
    [difficulty = requiredDifficulty], and, the progress observer (if any)
    having returned, the PoW Solver is called exactly once, with the digest
    of [address ++ previousHash] and that difficulty, and the nonce it
    returns is stored as it is. *)
Theorem plasma_decision (z : Zenon W) cb wait (s : State W) resp w1 r s1 :
  getRequiredPoWForAccountBlock (plasma (embedded z)) (quota_param (tx s)) (world s)
  = (Ok resp, w1) ->
  _setDifficulty z cb wait s = (r, s1) ->
  (requiredDifficulty resp = 0 ->
     r = Ok true /\
     fusedPlasma (tx s1) = basePlasma resp /\
     difficulty (tx s1) = 0 /\
     nonce (tx s1) = "0000000000000000"%string /\
     trace s1 = trace s ++ [EvGetRequiredPoW (quota_param (tx s))]) /\
  (requiredDifficulty resp <> 0 ->
     fusedPlasma (tx s1) = availablePlasma resp /\
     difficulty (tx s1) = requiredDifficulty resp /\
     forall w2,
       observe cb generating w1 = (Ok tt, w2) ->
       let powData :=
         Hash_digest (Address_getBytes (address (tx s))
                        ++ Hash_getBytes (previousHash (tx s))) in
       (exists evs,
          trace s1 = trace s ++ evs /\
          filter solver_event evs
          = [EvGeneratePoW powData (requiredDifficulty resp)]) /\
       forall n w3,
         generatePoW powData (requiredDifficulty resp) w2 = (Ok n, w3) ->
         nonce (tx s1) = n).
Proof.
  intros E1 Hrun. split.
  - intro Hrd. rewrite (setDifficulty_fused z cb wait s resp w1 E1 Hrd) in Hrun.
    inv_run Hrun. cbn. repeat split; reflexivity.
  - intro Hrd. rewrite (setDifficulty_pow z cb wait s resp w1 E1 Hrd) in Hrun.
    cbv zeta in Hrun. rewrite <- getPoWData_bytes.
    destruct (observe cb generating w1) as [[[]|e] w2] eqn:E2.
    + destruct (generatePoW (_getPoWData (tx s)) (requiredDifficulty resp) w2)
        as [[n|e] w3] eqn:E3.
      * destruct (observe cb done w3) as [r4 w4] eqn:E4.
        inv_run Hrun. cbn [tx trace]. split; [reflexivity|split; [reflexivity|]].
        intros w2' Ew. injection Ew as <-. cbv zeta. split.
        -- eexists. rewrite <- !app_assoc. split; [reflexivity|].
           destruct cb; cbn; reflexivity.
        -- intros n' w3' E3'. rewrite E3 in E3'. now injection E3' as -> _.
      * inv_run Hrun. cbn [tx trace]. split; [reflexivity|split; [reflexivity|]].
        intros w2' Ew. injection Ew as <-. cbv zeta. split.
        -- eexists. rewrite <- !app_assoc. split; [reflexivity|].
           destruct cb; cbn; reflexivity.
        -- intros n' w3' E3'. rewrite E3 in E3'. discriminate.
    + inv_run Hrun. cbn [tx trace]. split; [reflexivity|split; [reflexivity|]].
      intros w2' Ew. discriminate.
Qed.

(* ------------------------------------------------------------------ *)
(** *** Which collaborators a stage calls *)

Lemma emits_ret {A : Type} (P : Event -> bool) (a : A) :
  emits P (@ret W A a).
Proof.
  intros s r s' E. injection E as <- <-. exists []. now rewrite app_nil_r.
Qed.

Lemma emits_throw {A : Type} (P : Event -> bool) (e : Exn) : emits P (@throw W A e).
Proof.
  intros s r s' E. injection E as <- <-. exists []. now rewrite app_nil_r.
Qed.

Lemma emits_lift {A : Type} (P : Event -> bool) (x : Res A) :
  emits P (@lift W A x).
Proof.
  intros s r s' E. injection E as <- <-. exists []. now rewrite app_nil_r.
Qed.

Lemma emits_getTx (P : Event -> bool) : emits P (@getTx W).
Proof.
  intros s r s' E. injection E as <- <-. exists []. now rewrite app_nil_r.
Qed.

Lemma emits_assign (P : Event -> bool) f : emits P (@assign W f).
Proof.
  intros s r s' E. injection E as <- <-. exists []. cbn. now rewrite app_nil_r.
Qed.

Lemma emits_call {A : Type} (P : Event -> bool) (ev : Event) (c : Collab W A) :
  P ev = true -> emits P (call ev c).
Proof.
  intros HP s r s' E. unfold call in E.
  destruct (c (world s)) as [r0 w]. injection E as <- <-.
  exists [ev]. cbn. now rewrite HP.
Qed.

Lemma emits_bind {A B : Type} (P : Event -> bool) (m : M W A) (k : A -> M W B) :
  emits P m -> (forall a, emits P (k a)) -> emits P (bind m k).
Proof.
  intros Hm Hk s r s' E. unfold bind in E.
  destruct (m s) as [[a|e] s1] eqn:E1.
  - destruct (Hm _ _ _ E1) as (ev1 & T1 & F1).
    destruct (Hk a _ _ _ E) as (ev2 & T2 & F2).
    exists (ev1 ++ ev2). rewrite T2, T1, <- app_assoc. split; [reflexivity|].
    rewrite forallb_app, F1, F2. reflexivity.
  - injection E as <- <-. now apply (Hm _ _ _ E1).
Qed.

Ltac emits_tac :=
  repeat first
    [ apply emits_ret | apply emits_throw | apply emits_lift | apply emits_getTx
    | apply emits_assign | (apply emits_call; reflexivity)
    | (apply emits_bind; [|intro])
    | match goal with
      | |- emits _ (if ?c then _ else _) => destruct c
      | |- emits _ (match ?o with _ => _ end) => destruct o
      end ].

Lemma gate_emits (z : Zenon W) (kp : KeyPair W) :
  emits validation_event (_checkAndSetFields z kp).
Proof.
  unfold _checkAndSetFields, _autofillTransactionParameters, receive_rules,
    difficulty_guard.
  emits_tac.
Qed.

Lemma setDifficulty_emits (z : Zenon W) cb wait :
  emits plasma_event (_setDifficulty z cb wait).
Proof.
  unfold _setDifficulty, optional_call. emits_tac.
Qed.

Lemma setHashAndSignature_emits (kp : KeyPair W) :
  emits signing_event (_setHashAndSignature kp).
Proof.
  unfold _setHashAndSignature, _getTransactionSignature. emits_tac.
Qed.

(* ------------------------------------------------------------------ *)
(** *** Hash, signature, publish *)

Lemma setHashAndSignature_run (kp : KeyPair W) (s : State W) :
  _setHashAndSignature kp s
  = match getTransactionHash (tx s) with
    | Throw e => (Throw e, s)
    | Ok h =>
        let (r, w) := sign kp (Hash_getBytes h) (world s) in
        let tr := trace s ++ [EvSign (Hash_getBytes h)] in
        match r with
        | Throw e => (Throw e, mkState (set_hash h (tx s)) w tr)
        | Ok sig => (Ok true, mkState (set_signature sig (set_hash h (tx s))) w tr)
        end
    end.
Proof.
  unfold _setHashAndSignature, _getTransactionSignature,
    bind, call, assign, getTx, ret, lift.
  destruct (getTransactionHash (tx s)) as [h|e]; [|reflexivity].
  cbn [tx world trace hash set_hash].
  destruct (sign kp (Hash_getBytes h) (world s)) as [[sig|e] w]; reflexivity.
Qed.

(** The computed fields are not part of the encoding. *)
Lemma getTransactionHash_computed_fields (t : AccountBlockTemplate) h sig :
  getTransactionHash (set_signature sig (set_hash h t)) = getTransactionHash t.
Proof. reflexivity. Qed.

Lemma send_run (z : Zenon W) (kp : KeyPair W) cb wait (s : State W) :
  send z kp cb wait s
  = match _checkAndSetFields z kp s with
    | (Throw e, s1) => (Throw e, s1)
    | (Ok _, s1) =>
      match _setDifficulty z cb wait s1 with
      | (Throw e, s2) => (Throw e, s2)
      | (Ok _, s2) =>
        match _setHashAndSignature kp s2 with
        | (Throw e, s3) => (Throw e, s3)
        | (Ok _, s3) =>
            let (r, w) := publishRawTransaction (ledger z) (tx s3) (world s3) in
            (match r with Throw e => Throw e | Ok _ => Ok (tx s3) end,
             mkState (tx s3) w (trace s3 ++ [EvPublish (tx s3)]))
        end
      end
    end.
Proof.
  unfold send. unfold bind at 1.
  destruct (_checkAndSetFields z kp s) as [[b|e] s1]; [|reflexivity].
  unfold bind at 1.
  destruct (_setDifficulty z cb wait s1) as [[b'|e] s2]; [|reflexivity].
  unfold bind at 1.
  destruct (_setHashAndSignature kp s2) as [[b''|e] s3]; [|reflexivity].
  unfold bind, call, getTx, ret. cbn [tx world trace].
  destruct (publishRawTransaction (ledger z) (tx s3) (world s3)) as [[[]|e] w];
    reflexivity.
Qed.

(** An observer that returns and leaves the world alone only adds to the
    log. *)
Lemma setDifficulty_silent_observer (z : Zenon W) (f : Function W) wait (s : State W) :
  (forall status w, f status [] w = (Ok tt, w)) ->
  fst (_setDifficulty z (Some f) wait s) = fst (_setDifficulty z None wait s) /\
  tx (snd (_setDifficulty z (Some f) wait s))
  = tx (snd (_setDifficulty z None wait s)) /\
  world (snd (_setDifficulty z (Some f) wait s))
  = world (snd (_setDifficulty z None wait s)).
Proof.
  intro Hsilent.
  unfold _setDifficulty, optional_call, bind, call, assign, getTx, ret.
  cbn [tx world trace].
  destruct (getRequiredPoWForAccountBlock _ _ _) as [[resp|e] w1]; [|cbn; auto].
  destruct (negb (requiredDifficulty resp =? 0)); [|cbn; auto].
  cbn [tx world trace]. rewrite Hsilent.
  destruct (generatePoW _ _ _) as [[n|e] w3]; [|cbn; auto].
  cbn [tx world trace]. rewrite Hsilent. cbn. auto.
Qed.

Lemma send_silent_observer (z : Zenon W) (kp : KeyPair W) (f : Function W) wait
    (s0 : State W) :
  (forall status w, f status [] w = (Ok tt, w)) ->
  fst (send z kp (Some f) wait s0) = fst (send z kp None wait s0) /\
  tx (snd (send z kp (Some f) wait s0)) = tx (snd (send z kp None wait s0)) /\
  world (snd (send z kp (Some f) wait s0)) = world (snd (send z kp None wait s0)).
Proof.
  intro Hsilent. rewrite !send_run.
  destruct (_checkAndSetFields z kp s0) as [[b|e] s1]; [|auto].
  destruct (setDifficulty_silent_observer z f wait s1 Hsilent) as (Hr & Ht & Hw).
  destruct (_setDifficulty z (Some f) wait s1) as [rA sA].
  destruct (_setDifficulty z None wait s1) as [rN sN].
  cbn [fst snd] in Hr, Ht, Hw. subst rN.
  destruct rA as [b'|e]; [|auto].
  rewrite !setHashAndSignature_run, Ht, Hw.
  destruct (getTransactionHash (tx sN)) as [h|e]; [|auto].
  destruct (sign kp (Hash_getBytes h) (world sN)) as [[sig|e] w3];
    cbn [tx world trace fst snd]; [|auto].
  destruct (publishRawTransaction (ledger z) _ w3) as [[[]|e] w4]; cbn; auto.
Qed.

(** C9, as amended. When proof-of-work is required and an observer is
    supplied, [_setDifficulty] calls it with [generating] (as the [this]
    value of the call, without argument) before the PoW Solver and with
    [done] after it. An observer that returns both times and leaves the
    world as it was changes nothing but the log: result and template are
    those of the run without observer. An exception thrown by the observer
    is not caught: thrown at [generating] it ends the stage before the
    solver is called, thrown at [done] it ends the stage after the nonce
    was stored; either way [send] ends with that exception. With an
    observer that always returns and leaves the world as it was, [send]
    returns what it returns without observer. *)
Theorem observer_signals (z : Zenon W) (f : Function W) wait (s : State W) resp w1 :
  getRequiredPoWForAccountBlock (plasma (embedded z)) (quota_param (tx s)) (world s)
  = (Ok resp, w1) ->
  requiredDifficulty resp <> 0 ->
  let p := quota_param (tx s) in
  let powData := _getPoWData (tx s) in
  let rd := requiredDifficulty resp in
  let t1 := pow_funded resp (tx s) in
  (forall w2 n w3 w4,
     f generating [] w1 = (Ok tt, w2) ->
     generatePoW powData rd w2 = (Ok n, w3) ->
     f done [] w3 = (Ok tt, w4) ->
     _setDifficulty z (Some f) wait s
     = (Ok true,
        mkState (set_nonce n t1) w4
          (trace s ++ [EvGetRequiredPoW p; EvObserver generating [];
                       EvGeneratePoW powData rd; EvObserver done []]))) /\
  (forall n w3,
     f generating [] w1 = (Ok tt, w1) ->
     generatePoW powData rd w1 = (Ok n, w3) ->
     f done [] w3 = (Ok tt, w3) ->
     fst (_setDifficulty z (Some f) wait s) = fst (_setDifficulty z None wait s) /\
     tx (snd (_setDifficulty z (Some f) wait s))
     = tx (snd (_setDifficulty z None wait s)) /\
     world (snd (_setDifficulty z (Some f) wait s))
     = world (snd (_setDifficulty z None wait s))) /\
  (forall e w2,
     f generating [] w1 = (Throw e, w2) ->
     _setDifficulty z (Some f) wait s
     = (Throw e,
        mkState t1 w2 (trace s ++ [EvGetRequiredPoW p; EvObserver generating []]))) /\
  (forall w2 n w3 e w4,
     f generating [] w1 = (Ok tt, w2) ->
     generatePoW powData rd w2 = (Ok n, w3) ->
     f done [] w3 = (Throw e, w4) ->
     _setDifficulty z (Some f) wait s
     = (Throw e,
        mkState (set_nonce n t1) w4
          (trace s ++ [EvGetRequiredPoW p; EvObserver generating [];
                       EvGeneratePoW powData rd; EvObserver done []]))) /\
  (forall kp s0 b e s',
     _checkAndSetFields z kp s0 = (Ok b, s) ->
     _setDifficulty z (Some f) wait s = (Throw e, s') ->
     send z kp (Some f) wait s0 = (Throw e, s')) /\
  (forall kp s0,
     (forall status w, f status [] w = (Ok tt, w)) ->
     fst (send z kp (Some f) wait s0) = fst (send z kp None wait s0) /\
     tx (snd (send z kp (Some f) wait s0)) = tx (snd (send z kp None wait s0)) /\
     world (snd (send z kp (Some f) wait s0))
     = world (snd (send z kp None wait s0))).
Proof.
  intros E1 Hrd. cbv zeta.
  pose proof (setDifficulty_pow z (Some f) wait s resp w1 E1 Hrd) as HS.
  pose proof (setDifficulty_pow z None wait s resp w1 E1 Hrd) as HN.
  cbv zeta in HS, HN. cbn [observe observer_calls] in HS, HN.
  split; [|split; [|split; [|split; [|split]]]].
  - intros w2 n w3 w4 E2 E3 E4. rewrite HS, E2, E3, E4.
    now rewrite <- !app_assoc.
  - intros n w3 E2 E3 E4. rewrite HS, HN, E2, E3, E4. cbn. auto.
  - intros e w2 E2. rewrite HS, E2. now rewrite <- !app_assoc.
  - intros w2 n w3 e w4 E2 E3 E4. rewrite HS, E2, E3, E4.
    now rewrite <- !app_assoc.
  - intros kp s0 b e s' Hgate Hfail. unfold send.
    unfold bind at 1. rewrite Hgate. unfold bind at 1. now rewrite Hfail.
  - intros kp s0 Hsilent. now apply send_silent_observer.
Qed.

Ltac same_run :=
  repeat match goal with
         | Ha : ?x = (_, _), Hb : ?x = (_, _) |- _ =>
             rewrite Ha in Hb; inversion Hb; subst; clear Hb
         end.

End Pipeline.

(* ================================================================== *)
(** ** Further properties of the stages *)

Section Frames.

Context {W : Type} `{Imports W}.

Lemma preserves_ret {X A : Type} (f : AccountBlockTemplate -> X) (a : A) :
  preserves f (@ret W A a).
Proof. intros s r s' E. now injection E as <- <-. Qed.

Lemma preserves_throw {X A : Type} (f : AccountBlockTemplate -> X) (e : Exn) :
  preserves f (@throw W A e).
Proof. intros s r s' E. now injection E as <- <-. Qed.

Lemma preserves_lift {X A : Type} (f : AccountBlockTemplate -> X) (x : Res A) :
  preserves f (@lift W A x).
Proof. intros s r s' E. now injection E as <- <-. Qed.

Lemma preserves_getTx {X : Type} (f : AccountBlockTemplate -> X) :
  preserves f (@getTx W).
Proof. intros s r s' E. now injection E as <- <-. Qed.

Lemma preserves_call {X A : Type} (f : AccountBlockTemplate -> X) ev (c : Collab W A) :
  preserves f (call ev c).
Proof.
  intros s r s' E. unfold call in E. destruct (c (world s)).
  now injection E as <- <-.
Qed.

Lemma preserves_assign {X : Type} (f : AccountBlockTemplate -> X) g :
  (forall t, f (g t) = f t) -> preserves f (@assign W g).
Proof. intros Hg s r s' E. injection E as <- <-. apply Hg. Qed.

Lemma preserves_bind {X A B : Type} (f : AccountBlockTemplate -> X)
    (m : M W A) (k : A -> M W B) :
  preserves f m -> (forall a, preserves f (k a)) -> preserves f (bind m k).
Proof.
  intros Hm Hk s r s' E. unfold bind in E.
  destruct (m s) as [[a|e] s1] eqn:E1.
  - rewrite (Hk a _ _ _ E). now apply (Hm _ _ _ E1).
  - injection E as <- <-. now apply (Hm _ _ _ E1).
Qed.

Ltac preserves_tac :=
  repeat first
    [ apply preserves_ret | apply preserves_throw | apply preserves_lift
    | apply preserves_getTx | apply preserves_call
    | (apply preserves_assign; intro; reflexivity)
    | (apply preserves_bind; [|intro])
    | match goal with
      | |- preserves _ (if ?c then _ else _) => destruct c
      | |- preserves _ (match ?o with _ => _ end) => destruct o
      end ].

Lemma gate_preserves (z : Zenon W) (kp : KeyPair W) :
  preserves gate_kept (_checkAndSetFields z kp).
Proof.
  unfold _checkAndSetFields, _autofillTransactionParameters, receive_rules,
    difficulty_guard.
  preserves_tac.
Qed.

Lemma setDifficulty_preserves (z : Zenon W) cb wait :
  preserves plasma_kept (_setDifficulty z cb wait).
Proof.
  unfold _setDifficulty, optional_call. preserves_tac.
Qed.

Lemma setHashAndSignature_preserves (kp : KeyPair W) :
  preserves signing_kept (_setHashAndSignature kp).
Proof.
  unfold _setHashAndSignature, _getTransactionSignature. preserves_tac.
Qed.

(** X1. Whatever the gate's outcome, it has assigned nothing but
    [address], [publicKey], [height], [previousHash] and
    [momentumAcknowledged]: block type, hash, [toAddress], amount, token
    standard, [fromBlockHash], data, plasma, difficulty, nonce and
    signature are as the caller left them. *)
Theorem gate_frame (z : Zenon W) (kp : KeyPair W) (s : State W) :
  gate_kept (tx (snd (_checkAndSetFields z kp s))) = gate_kept (tx s).
Proof.
  apply (gate_preserves z kp s (fst (_checkAndSetFields z kp s))).
  apply surjective_pairing.
Qed.

(** The gate returns [true] or throws; once it has returned, the template
    is the caller's with the linkage of key pair and ledger. *)
Lemma gate_ok_state (z : Zenon W) (kp : KeyPair W) (s : State W) b s' a pk fb m w4 :
  linkage_reads z kp (world s) a pk fb m w4 ->
  _checkAndSetFields z kp s = (Ok b, s') ->
  b = true /\
  tx s' = linked a pk fb m (tx s) /\
  guard_verdict (tx s) = Ok true /\
  (isSendBlock (blockType (tx s)) = true ->
     world s' = w4 /\ trace s' = trace s ++ linkage_calls a) /\
  (isSendBlock (blockType (tx s)) = false ->
     fromBlockHash (tx s) <> emptyHash /\
     data (tx s) = [] /\
     exists sb,
       getBlockByHash (ledger z) (fromBlockHash (tx s)) w4 = (Ok (Some sb), world s') /\
       Address_toString (AccountBlock.toAddress sb) = Address_toString a /\
       trace s'
       = trace s ++ linkage_calls a ++ [EvGetBlockByHash (fromBlockHash (tx s))]).
Proof.
  intros Hl Hrun.
  destruct (isSendBlock (blockType (tx s))) eqn:Hsend.
  - rewrite (send_rule_run z kp s a pk fb m w4 Hsend Hl) in Hrun.
    injection Hrun as Hv <-.
    assert (Hg : guard_verdict (tx s) = Ok true).
    { unfold guard_verdict in *. destruct (_ && _); [discriminate|reflexivity]. }
    rewrite Hg in Hv. injection Hv as <-.
    split; [reflexivity|]. split; [reflexivity|]. split; [exact Hg|].
    split; [intros _; split; reflexivity | discriminate].
  - destruct (gate_ok_receive z kp s b s' Hsend Hrun)
      as (Hh & Hdata & a' & pk' & fb' & m' & w4' & sb & w5 & Hl' & E5 & Heq).
    assert (a' = a /\ pk' = pk /\ fb' = fb /\ m' = m /\ w4' = w4) as (-> & -> & -> & -> & ->).
    { destruct Hl as (w1 & w2 & w3 & E1 & E2 & E3 & E4).
      destruct Hl' as (v1 & v2 & v3 & F1 & F2 & F3 & F4).
      rewrite E1 in F1. injection F1 as <- <-.
      rewrite E2 in F2. injection F2 as <- <-.
      rewrite E3 in F3. injection F3 as <- <-.
      rewrite E4 in F4. injection F4 as <- <-. auto. }
    destruct (receive_rules_apply z kp s a pk fb m w4 Hsend Hl) as [_ Hrest].
    destruct (Hrest Hh _ _ E5) as (_ & _ & _ & Hpass & _).
    rewrite (Hpass sb eq_refl Heq Hdata) in Hrun.
    injection Hrun as Hv <-.
    assert (Hg : guard_verdict (tx s) = Ok true).
    { unfold guard_verdict in *. destruct (_ && _); [discriminate|reflexivity]. }
    rewrite Hg in Hv. injection Hv as <-.
    split; [reflexivity|]. split; [reflexivity|]. split; [exact Hg|].
    split; [discriminate|]. intros _.
    split; [exact Hh|]. split; [exact Hdata|].
    exists sb. cbn [world trace]. auto.
Qed.

(** X2. What a template that passed the gate is known to satisfy. The gate
    returns nothing but [true]; the key material and the Ledger Reader have
    answered, and address, public key, height, previous hash and
    acknowledged momentum are theirs, not the caller's; the template does
    not have [difficulty > 0] with an empty nonce; and if its block type is
    not a send variant, its [fromBlockHash] is not the sentinel object and
    was resolved to a block whose [toAddress] prints as the key pair's
    address, and its data is empty. *)
Theorem gate_postcondition (z : Zenon W) (kp : KeyPair W) (s : State W) b s' :
  _checkAndSetFields z kp s = (Ok b, s') ->
  b = true /\
  exists a pk fb m w4,
    linkage_reads z kp (world s) a pk fb m w4 /\
    tx s' = linked a pk fb m (tx s) /\
    address (tx s') = a /\
    publicKey (tx s') = pk /\
    (0 <? difficulty (tx s)) && String.eqb (nonce (tx s)) "" = false /\
    (isSendBlock (blockType (tx s)) = false ->
       fromBlockHash (tx s) <> emptyHash /\
       data (tx s) = [] /\
       exists sb,
         getBlockByHash (ledger z) (fromBlockHash (tx s)) w4
         = (Ok (Some sb), world s') /\
         Address_toString (AccountBlock.toAddress sb) = Address_toString a).
Proof.
  intro Hrun.
  destruct (gate_ok_linkage z kp s b s' Hrun) as (a & pk & fb & m & w4 & Hl).
  destruct (gate_ok_state z kp s b s' a pk fb m w4 Hl Hrun)
    as (Hb & Ht & Hg & _ & Hrecv).
  split; [exact Hb|].
  exists a, pk, fb, m, w4.
  split; [exact Hl|]. split; [exact Ht|].
  split; [now rewrite Ht|]. split; [now rewrite Ht|].
  split.
  { unfold guard_verdict in Hg. destruct (_ && _); [discriminate|reflexivity]. }
  intro Hsend. destruct (Hrecv Hsend) as (Hh & Hd & sb & E5 & Heq & _).
  split; [exact Hh|]. split; [exact Hd|]. exists sb. auto.
Qed.

End Frames.

Section StageOutcomes.

Context {W : Type} `{Imports W}.

Lemma setDifficulty_quota_throw (z : Zenon W) cb wait (s : State W) e w1 :
  getRequiredPoWForAccountBlock (plasma (embedded z)) (quota_param (tx s)) (world s)
  = (Throw e, w1) ->
  _setDifficulty z cb wait s
  = (Throw e, mkState (tx s) w1 (trace s ++ [EvGetRequiredPoW (quota_param (tx s))])).
Proof.
  intro E1. unfold _setDifficulty, bind, call, getTx. cbn [tx world trace].
  fold (quota_param (tx s)). now rewrite E1.
Qed.

(** X3. How the plasma stage fails, and what it never touches. Whatever
    its outcome it assigns nothing but [fusedPlasma], [difficulty] and
    [nonce]. A failing Plasma-Quota query is passed on with the template
    untouched. A failing PoW Solver is passed on after plasma and
    difficulty were stored: the template then holds the required
    difficulty with the nonce it had before. *)
Theorem plasma_stage_failures (z : Zenon W) cb wait (s : State W) :
  plasma_kept (tx (snd (_setDifficulty z cb wait s))) = plasma_kept (tx s) /\
  (forall e w1,
     getRequiredPoWForAccountBlock (plasma (embedded z)) (quota_param (tx s)) (world s)
     = (Throw e, w1) ->
     _setDifficulty z cb wait s
     = (Throw e, mkState (tx s) w1 (trace s ++ [EvGetRequiredPoW (quota_param (tx s))]))) /\
  (forall resp w1 w2 e w3,
     getRequiredPoWForAccountBlock (plasma (embedded z)) (quota_param (tx s)) (world s)
     = (Ok resp, w1) ->
     requiredDifficulty resp <> 0 ->
     observe cb generating w1 = (Ok tt, w2) ->
     generatePoW (_getPoWData (tx s)) (requiredDifficulty resp) w2 = (Throw e, w3) ->
     fst (_setDifficulty z cb wait s) = Throw e /\
     difficulty (tx (snd (_setDifficulty z cb wait s))) = requiredDifficulty resp /\
     fusedPlasma (tx (snd (_setDifficulty z cb wait s))) = availablePlasma resp /\
     nonce (tx (snd (_setDifficulty z cb wait s))) = nonce (tx s)).
Proof.
  split; [|split].
  - apply (setDifficulty_preserves z cb wait s (fst (_setDifficulty z cb wait s))).
    apply surjective_pairing.
  - intros e w1 E1. now apply setDifficulty_quota_throw.
  - intros resp w1 w2 e w3 E1 Hrd E2 E3.
    rewrite (setDifficulty_pow z cb wait s resp w1 E1 Hrd). cbv zeta.
    rewrite E2, E3. cbn. auto.
Qed.

(** X4. What a template that went through the plasma stage is known to
    satisfy. The stage returns nothing but [true]; the Plasma-Quota
    collaborator has answered and [difficulty] is the [requiredDifficulty]
    of its answer; if that is 0, [fusedPlasma] is [basePlasma] and the
    nonce is the all-zero sentinel; if not, [fusedPlasma] is
    [availablePlasma] and the nonce is what the PoW Solver returned for the
    digest of address and previous hash at that difficulty. *)
Theorem plasma_stage_postcondition (z : Zenon W) cb wait (s : State W) b s1 :
  _setDifficulty z cb wait s = (Ok b, s1) ->
  b = true /\
  exists resp w1,
    getRequiredPoWForAccountBlock (plasma (embedded z)) (quota_param (tx s)) (world s)
    = (Ok resp, w1) /\
    difficulty (tx s1) = requiredDifficulty resp /\
    (requiredDifficulty resp = 0 ->
       fusedPlasma (tx s1) = basePlasma resp /\
       nonce (tx s1) = "0000000000000000"%string) /\
    (requiredDifficulty resp <> 0 ->
       fusedPlasma (tx s1) = availablePlasma resp /\
       exists w2 w3,
         generatePoW (_getPoWData (tx s)) (requiredDifficulty resp) w2
         = (Ok (nonce (tx s1)), w3)).
Proof.
  intro Hrun.
  destruct (getRequiredPoWForAccountBlock (plasma (embedded z))
              (quota_param (tx s)) (world s)) as [[resp|e] w1] eqn:E1.
  2:{ rewrite (setDifficulty_quota_throw z cb wait s e w1 E1) in Hrun. discriminate. }
  destruct (Z.eq_dec (requiredDifficulty resp) 0) as [Hrd|Hrd].
  - rewrite (setDifficulty_fused z cb wait s resp w1 E1 Hrd) in Hrun.
    injection Hrun as <- <-. split; [reflexivity|].
    exists resp, w1. split; [reflexivity|]. cbn [tx difficulty set_nonce set_difficulty].
    split; [now rewrite Hrd|]. split; [intros _; split; reflexivity|].
    intro Hne. now elim Hne.
  - rewrite (setDifficulty_pow z cb wait s resp w1 E1 Hrd) in Hrun. cbv zeta in Hrun.
    destruct (observe cb generating w1) as [[[]|e] w2]; [|discriminate].
    destruct (generatePoW (_getPoWData (tx s)) (requiredDifficulty resp) w2)
      as [[n|e] w3] eqn:E3; [|discriminate].
    destruct (observe cb done w3) as [[[]|e] w4]; [|discriminate].
    injection Hrun as <- <-. split; [reflexivity|].
    exists resp, w1. split; [reflexivity|]. split; [reflexivity|].
    split; [intro Hz; now elim Hrd|]. intros _. split; [reflexivity|].
    exists w2, w3. exact E3.
Qed.

(** Every PoW Solver call of the plasma stage is for the digest of the
    template's address and previous hash. *)
Lemma setDifficulty_solver_input (z : Zenon W) cb wait (s : State W) r s1 evs pd d :
  _setDifficulty z cb wait s = (r, s1) ->
  trace s1 = trace s ++ evs ->
  In (EvGeneratePoW pd d) evs ->
  pd = _getPoWData (tx s).
Proof.
  intros Hrun Htr Hin.
  destruct (getRequiredPoWForAccountBlock (plasma (embedded z))
              (quota_param (tx s)) (world s)) as [[resp|e] w1] eqn:E1.
  2:{ rewrite (setDifficulty_quota_throw z cb wait s e w1 E1) in Hrun.
      inv_run Hrun. cbn [trace] in Htr. apply app_inv_head in Htr. subst evs.
      destruct Hin as [Hin|[]]. discriminate. }
  destruct (Z.eq_dec (requiredDifficulty resp) 0) as [Hrd|Hrd].
  { rewrite (setDifficulty_fused z cb wait s resp w1 E1 Hrd) in Hrun.
    inv_run Hrun. cbn [trace] in Htr. apply app_inv_head in Htr. subst evs.
    destruct Hin as [Hin|[]]. discriminate. }
  rewrite (setDifficulty_pow z cb wait s resp w1 E1 Hrd) in Hrun. cbv zeta in Hrun.
  assert (Hall : forall l, In (EvGeneratePoW pd d) l ->
            (forall x, In x l ->
               x = EvGeneratePoW (_getPoWData (tx s)) (requiredDifficulty resp)
               \/ solver_event x = false) ->
            pd = _getPoWData (tx s)).
  { intros l Hl Hx. destruct (Hx _ Hl) as [E|E]; [now injection E|discriminate]. }
  destruct (observe cb generating w1) as [[[]|e] w2];
    [destruct (generatePoW (_getPoWData (tx s)) (requiredDifficulty resp) w2)
       as [[n|e] w3]; [destruct (observe cb done w3) as [r4 w4]|]|];
    inv_run Hrun; cbn [trace] in Htr; rewrite <- !app_assoc in Htr;
    apply app_inv_head in Htr; subst evs;
    apply (Hall _ Hin); intros x Hx; destruct cb; cbn in Hx;
    repeat (destruct Hx as [<-|Hx]; [auto|]); destruct Hx.
Qed.

(** X5. The proof-of-work of a block is bound to the signer and to the
    account chain, not to what the caller wrote into the template: after
    the gate, every PoW Solver call of the plasma stage is for the digest
    of the key pair's address followed by the hash of the account's
    frontier block, or by the bytes of the empty hash if the account has no
    block yet. *)
Theorem pow_input_is_signer_and_frontier
    (z : Zenon W) (kp : KeyPair W) cb wait (s : State W) b s1 a pk fb m w4 r s2 evs :
  linkage_reads z kp (world s) a pk fb m w4 ->
  _checkAndSetFields z kp s = (Ok b, s1) ->
  _setDifficulty z cb wait s1 = (r, s2) ->
  trace s2 = trace s1 ++ evs ->
  forall pd d,
    In (EvGeneratePoW pd d) evs ->
    pd = Hash_digest
           (Address_getBytes a
              ++ Hash_getBytes
                   (match fb with
                    | Some frontier => AccountBlock.hash frontier
                    | None => emptyHash
                    end)).
Proof.
  intros Hl Hgate Hrun Htr pd d Hin.
  rewrite (setDifficulty_solver_input z cb wait s1 r s2 evs pd d Hrun Htr Hin).
  destruct (gate_ok_state z kp s b s1 a pk fb m w4 Hl Hgate) as (_ & Ht & _).
  rewrite Ht, getPoWData_bytes. reflexivity.
Qed.

(** X6. What a template that went through hashing and signing is known to
    satisfy. The stage returns nothing but [true]; the hash of the template
    is the digest of the template's own canonical encoding, of which
    neither hash nor signature are part; the signature is what the key
    pair returned for the bytes of that hash, in the one call made; no
    other field changed; and running the stage again yields the same
    hash. *)
Theorem signing_postcondition (kp : KeyPair W) (s : State W) b s' :
  _setHashAndSignature kp s = (Ok b, s') ->
  b = true /\
  getTransactionHash (tx s') = Ok (hash (tx s')) /\
  sign kp (Hash_getBytes (hash (tx s'))) (world s) = (Ok (signature (tx s')), world s') /\
  trace s' = trace s ++ [EvSign (Hash_getBytes (hash (tx s')))] /\
  signing_kept (tx s') = signing_kept (tx s) /\
  forall b' s'', _setHashAndSignature kp s' = (Ok b', s'') -> hash (tx s'') = hash (tx s').
Proof.
  intro Hrun. pose proof Hrun as Hrun'.
  rewrite setHashAndSignature_run in Hrun'.
  destruct (getTransactionHash (tx s)) as [h|e] eqn:Eh; [|discriminate].
  destruct (sign kp (Hash_getBytes h) (world s)) as [[sig|e] w] eqn:Es; [|discriminate].
  cbv zeta in Hrun'. injection Hrun' as <- <-.
  cbn [tx world trace hash signature set_signature set_hash].
  split; [reflexivity|].
  split; [now rewrite getTransactionHash_computed_fields|].
  split; [exact Es|]. split; [reflexivity|]. split; [reflexivity|].
  intros b' s'' Hagain. rewrite setHashAndSignature_run in Hagain.
  cbn [tx world trace] in Hagain.
  rewrite getTransactionHash_computed_fields, Eh in Hagain.
  destruct (sign kp (Hash_getBytes h) w) as [[sig'|e] w']; [|discriminate].
  cbv zeta in Hagain. now injection Hagain as _ <-.
Qed.

(** X7. How hashing and signing fail. If the canonical encoder throws,
    the stage throws the same, signs nothing and leaves the template as it
    was. If the key pair throws, the stage throws the same after the one
    signing call, with the new hash already stored and the signature
    untouched. *)
Theorem signing_failures (kp : KeyPair W) (s : State W) :
  (forall e,
     getTransactionHash (tx s) = Throw e ->
     _setHashAndSignature kp s = (Throw e, s)) /\
  (forall h e w,
     getTransactionHash (tx s) = Ok h ->
     sign kp (Hash_getBytes h) (world s) = (Throw e, w) ->
     fst (_setHashAndSignature kp s) = Throw e /\
     hash (tx (snd (_setHashAndSignature kp s))) = h /\
     signature (tx (snd (_setHashAndSignature kp s))) = signature (tx s) /\
     trace (snd (_setHashAndSignature kp s)) = trace s ++ [EvSign (Hash_getBytes h)]).
Proof.
  split.
  - intros e Eh. now rewrite setHashAndSignature_run, Eh.
  - intros h e w Eh Es. rewrite setHashAndSignature_run, Eh, Es. cbn. auto.
Qed.

(** X8. A block that needs no proof-of-work, end to end: once the gate has
    let the template through, the Plasma-Quota collaborator has answered
    with [requiredDifficulty = 0], the key pair has signed and the Ledger
    Writer has accepted, [send] returns the template of the gate with
    [fusedPlasma = basePlasma], [difficulty = 0], the all-zero nonce, the
    digest of its encoding as hash and the key pair's signature, having
    called, after the gate, the Plasma-Quota collaborator, the key pair and
    the Ledger Writer once each, in this order, and no observer or PoW
    Solver. *)
Theorem send_success_without_pow
    (z : Zenon W) (kp : KeyPair W) cb wait (s : State W) b s1 resp w2 h sig w3 w4 :
  _checkAndSetFields z kp s = (Ok b, s1) ->
  getRequiredPoWForAccountBlock (plasma (embedded z)) (quota_param (tx s1)) (world s1)
  = (Ok resp, w2) ->
  requiredDifficulty resp = 0 ->
  let funded :=
    set_nonce "0000000000000000"
      (set_difficulty 0 (set_fusedPlasma (basePlasma resp) (tx s1))) in
  getTransactionHash funded = Ok h ->
  sign kp (Hash_getBytes h) w2 = (Ok sig, w3) ->
  let final := set_signature sig (set_hash h funded) in
  publishRawTransaction (ledger z) final w3 = (Ok tt, w4) ->
  send z kp cb wait s
  = (Ok final,
     mkState final w4
       (trace s1 ++ [EvGetRequiredPoW (quota_param (tx s1));
                     EvSign (Hash_getBytes h); EvPublish final])) /\
  fusedPlasma final = basePlasma resp /\
  difficulty final = 0 /\
  nonce final = "0000000000000000"%string /\
  hash final = h /\
  signature final = sig /\
  getTransactionHash final = Ok (hash final) /\
  gate_result_kept final = gate_result_kept (tx s1).
Proof.
  intros Hgate E1 Hrd funded Eh Es final Ep.
  split.
  - rewrite send_run, Hgate, (setDifficulty_fused z cb wait s1 resp w2 E1 Hrd).
    rewrite setHashAndSignature_run. cbn [tx world trace].
    fold funded. rewrite Eh, Es. cbv zeta. cbn [tx world trace].
    fold final. rewrite Ep. now rewrite <- !app_assoc.
  - split; [reflexivity|]. split; [reflexivity|]. split; [reflexivity|].
    split; [reflexivity|]. split; [reflexivity|]. split; [|reflexivity].
    unfold final. rewrite getTransactionHash_computed_fields. exact Eh.
Qed.

(* ------------------------------------------------------------------ *)
(** *** How often a collaborator is called *)

Lemma at_most_ret {A : Type} (P : Event -> bool) (a : A) : at_most P 0 (@ret W A a).
Proof.
  intros s r s' E. injection E as <- <-. exists []. now rewrite app_nil_r.
Qed.

Lemma at_most_throw {A : Type} (P : Event -> bool) (e : Exn) :
  at_most P 0 (@throw W A e).
Proof.
  intros s r s' E. injection E as <- <-. exists []. now rewrite app_nil_r.
Qed.

Lemma at_most_lift {A : Type} (P : Event -> bool) (x : Res A) :
  at_most P 0 (@lift W A x).
Proof.
  intros s r s' E. injection E as <- <-. exists []. now rewrite app_nil_r.
Qed.

Lemma at_most_getTx (P : Event -> bool) : at_most P 0 (@getTx W).
Proof.
  intros s r s' E. injection E as <- <-. exists []. now rewrite app_nil_r.
Qed.

Lemma at_most_assign (P : Event -> bool) g : at_most P 0 (@assign W g).
Proof.
  intros s r s' E. injection E as <- <-. exists []. cbn. now rewrite app_nil_r.
Qed.

Lemma at_most_call {A : Type} (P : Event -> bool) (ev : Event) (c : Collab W A) :
  at_most P (if P ev then 1 else 0) (call ev c).
Proof.
  intros s r s' E. unfold call in E.
  destruct (c (world s)) as [r0 w]. injection E as <- <-.
  exists [ev]. cbn. split; [reflexivity|]. now destruct (P ev).
Qed.

Lemma at_most_bind {A B : Type} (P : Event -> bool) n1 n2 (m : M W A) (k : A -> M W B) :
  at_most P n1 m -> (forall a, at_most P n2 (k a)) -> at_most P (n1 + n2) (bind m k).
Proof.
  intros Hm Hk s r s' E. unfold bind in E.
  destruct (m s) as [[a|e] s1] eqn:E1.
  - destruct (Hm _ _ _ E1) as (ev1 & T1 & F1).
    destruct (Hk a _ _ _ E) as (ev2 & T2 & F2).
    exists (ev1 ++ ev2). rewrite T2, T1, <- app_assoc. split; [reflexivity|].
    rewrite filter_app, length_app. lia.
  - injection E as <- <-. destruct (Hm _ _ _ E1) as (ev1 & T1 & F1).
    exists ev1. split; [exact T1 | lia].
Qed.

Lemma at_most_if {A : Type} (P : Event -> bool) n1 n2 (c : bool) (m1 m2 : M W A) :
  at_most P n1 m1 -> at_most P n2 m2 ->
  at_most P (Nat.max n1 n2) (if c then m1 else m2).
Proof.
  intros H1 H2 s r s' E. destruct c.
  - destruct (H1 _ _ _ E) as (evs & T & F). exists evs. split; [exact T | lia].
  - destruct (H2 _ _ _ E) as (evs & T & F). exists evs. split; [exact T | lia].
Qed.

Lemma at_most_option {A X : Type} (P : Event -> bool) n1 n2 (o : option X)
    (f : X -> M W A) (g : M W A) :
  (forall x, at_most P n1 (f x)) -> at_most P n2 g ->
  at_most P (Nat.max n1 n2) (match o with Some x => f x | None => g end).
Proof.
  intros H1 H2 s r s' E. destruct o as [x|].
  - destruct (H1 x _ _ _ E) as (evs & T & F). exists evs. split; [exact T | lia].
  - destruct (H2 _ _ _ E) as (evs & T & F). exists evs. split; [exact T | lia].
Qed.

Lemma at_most_call_to {A : Type} (c d : Collaborator) (ev : Event) (k : Collab W A) :
  collaborator_of ev = d ->
  at_most (is_call_to c) (if Collaborator_eqb c d then 1 else 0) (call ev k).
Proof.
  intros <-. apply (at_most_call (is_call_to c)).
Qed.

Ltac at_most_tac :=
  repeat first
    [ apply at_most_ret | apply at_most_throw | apply at_most_lift
    | apply at_most_getTx | apply at_most_assign
    | match goal with
      | |- at_most (is_call_to ?c) _ (call ?ev _) =>
          let d := eval cbn in (collaborator_of ev) in
          apply (at_most_call_to c d); reflexivity
      end
    | (eapply at_most_bind; [|intro])
    | eapply at_most_if
    | (eapply at_most_option; [intro|]) ].

(** X9. [send] calls no collaborator twice: whatever the outcome, the calls
    it has logged contain at most one call of each function of the key
    pair, of the Ledger Reader, of the Plasma-Quota collaborator, of the
    PoW Solver and of the Ledger Writer, and at most two calls of the
    observer. *)
Theorem send_calls_at_most_once (z : Zenon W) (kp : KeyPair W) cb wait (s : State W)
    (c : Collaborator) :
  exists evs,
    trace (snd (send z kp cb wait s)) = trace s ++ evs /\
    (calls_to c evs <= match c with CObserver => 2 | _ => 1 end)%nat.
Proof.
  assert (Hc : exists n,
            at_most (is_call_to c) n (send z kp cb wait) /\
            (n <= match c with CObserver => 2 | _ => 1 end)%nat).
  { eexists. split.
    - unfold send, _setHashAndSignature, _getTransactionSignature, _setDifficulty,
        optional_call, _checkAndSetFields, receive_rules, difficulty_guard,
        _autofillTransactionParameters.
      at_most_tac.
    - destruct c; cbn; lia. }
  destruct Hc as (n & Hn & Hle).
  destruct (Hn s _ _ (surjective_pairing _)) as (evs & T & F).
  exists evs. split; [exact T|]. unfold calls_to. lia.
Qed.

(** X10. The two block-type tests exclude each other, the members of the
    enumeration being distinct: no block type is both a send and a receive
    type. *)
Theorem send_and_receive_types_exclude (bt : Z) :
  NoDup [userSend; contractSend; userReceive; genesisReceive; contractReceive] ->
  isSendBlock (Some bt) && isReceiveBlock bt = false.
Proof.
  intro Hnd. destruct (isReceiveBlock bt) eqn:Hr.
  - rewrite (receive_type_not_send bt Hnd Hr). reflexivity.
  - apply andb_false_r.
Qed.

End StageOutcomes.

(* ================================================================== *)
(** ** The order of the stages *)

Section SendOrder.

Context {W : Type} `{Imports W}.

Ltac logged_calls :=
  repeat first
    [ apply emits_ret | apply emits_throw | apply emits_lift | apply emits_getTx
    | apply emits_assign | (apply emits_call; reflexivity)
    | (apply emits_bind; [|intro])
    | match goal with
      | |- emits _ (if ?c then _ else _) => destruct c
      | |- emits _ (match ?o with _ => _ end) => destruct o
      end ].

(** A call followed by anything that logs: the call is the first entry. *)
Lemma call_then_emits {A B : Type} (P : Event -> bool) (ev : Event)
    (c : Collab W A) (k : A -> M W B) (s : State W) r s' :
  (forall a, emits P (k a)) ->
  bind (call ev c) k s = (r, s') ->
  exists rest, trace s' = trace s ++ ev :: rest.
Proof.
  intros Hk Hrun. unfold bind, call in Hrun.
  destruct (c (world s)) as [[a|e] w].
  - destruct (Hk a _ _ _ Hrun) as (evs & T & _). cbn [trace] in T.
    exists evs. now rewrite T, <- app_assoc.
  - injection Hrun as _ <-. now exists [].
Qed.

(** The gate begins with the key pair. *)
Lemma gate_first_call (z : Zenon W) (kp : KeyPair W) (s : State W) r s1 :
  _checkAndSetFields z kp s = (r, s1) ->
  exists rest, trace s1 = trace s ++ EvGetAddress :: rest.
Proof.
  intro Hrun. unfold _checkAndSetFields in Hrun.
  apply (call_then_emits validation_event) in Hrun; [exact Hrun|].
  intro a. unfold _autofillTransactionParameters, receive_rules, difficulty_guard.
  logged_calls.
Qed.

(** The plasma stage begins with the Plasma-Quota query for the template
    as it is. *)
Lemma setDifficulty_first_call (z : Zenon W) cb wait (s : State W) r s1 :
  _setDifficulty z cb wait s = (r, s1) ->
  exists rest, trace s1 = trace s ++ EvGetRequiredPoW (quota_param (tx s)) :: rest.
Proof.
  intro Hrun. unfold _setDifficulty in Hrun.
  unfold bind at 1 in Hrun. unfold getTx at 1 in Hrun.
  apply (call_then_emits plasma_event) in Hrun; [exact Hrun|].
  intro resp. unfold optional_call. logged_calls.
Qed.

Lemma setDifficulty_returns_true (z : Zenon W) cb wait (s : State W) b s1 :
  _setDifficulty z cb wait s = (Ok b, s1) -> b = true.
Proof.
  intro Hrun.
  destruct (getRequiredPoWForAccountBlock (plasma (embedded z))
              (quota_param (tx s)) (world s)) as [[resp|e] w1] eqn:E1.
  2:{ rewrite (setDifficulty_quota_throw z cb wait s e w1 E1) in Hrun. discriminate. }
  destruct (Z.eq_dec (requiredDifficulty resp) 0) as [Hrd|Hrd].
  - rewrite (setDifficulty_fused z cb wait s resp w1 E1 Hrd) in Hrun. congruence.
  - rewrite (setDifficulty_pow z cb wait s resp w1 E1 Hrd) in Hrun. cbv zeta in Hrun.
    destruct (observe cb generating w1) as [[[]|e] w2]; [|discriminate].
    destruct (generatePoW _ _ w2) as [[n|e] w3]; [|discriminate].
    destruct (observe cb done w3) as [[[]|e] w4]; [|discriminate].
    congruence.
Qed.

(** A hashing and signing stage that returns has stored the encoder's hash
    and the key pair's signature of its bytes. *)
Lemma setHashAndSignature_ok (kp : KeyPair W) (s : State W) b s' :
  _setHashAndSignature kp s = (Ok b, s') ->
  b = true /\
  getTransactionHash (tx s) = Ok (hash (tx s')) /\
  sign kp (Hash_getBytes (hash (tx s'))) (world s) = (Ok (signature (tx s')), world s') /\
  tx s' = set_signature (signature (tx s')) (set_hash (hash (tx s')) (tx s)) /\
  trace s' = trace s ++ [EvSign (Hash_getBytes (hash (tx s')))].
Proof.
  intro Hrun. rewrite setHashAndSignature_run in Hrun.
  destruct (getTransactionHash (tx s)) as [h|e] eqn:Eh; [|discriminate].
  destruct (sign kp (Hash_getBytes h) (world s)) as [[sig|e] w] eqn:Es; [|discriminate].
  cbv zeta in Hrun. injection Hrun as <- <-.
  cbn [tx world trace hash signature set_signature set_hash].
  split; [reflexivity|]. split; [reflexivity|]. split; [exact Es|].
  split; reflexivity.
Qed.

Ltac same_outcome :=
  repeat match goal with
         | Ha : ?x = (_, _), Hb : ?x = (_, _) |- _ =>
             rewrite Ha in Hb; inversion Hb; subst; clear Hb
         end.

(** C5. [send] runs the validation gate, then the plasma policy, then hash
    and signature, then the publication. The calls it logs split, in this
    order, into the calls of the gate (key material and Ledger Reader,
    beginning with the key pair), the calls of the plasma policy
    (Plasma-Quota, observer, PoW Solver), the signing call and the
    publication. A stage that fails ends [send] with its exception and its
    state, with no call of a later stage. On success all three stages have
    returned one after the other ([send_report]): the gate after its
    linkage calls, the plasma stage after a Plasma-Quota query for the
    gate's template; the template returned is the final one, which is the
    plasma stage's template with the digest of its canonical encoding as
    hash and with the signature the key pair gave for that hash, and it is
    the template handed to the Ledger Writer, which accepted it. In
    particular a non-send template whose [fromBlockHash] the Ledger Reader
    cannot resolve fails in the gate, with no Plasma-Quota, signing or
    publication call. *)
Theorem send_stage_order (z : Zenon W) (kp : KeyPair W) cb wait (s : State W) r s' :
  send z kp cb wait s = (r, s') ->
  exists ev1 ev2 ev3 ev4,
    trace s' = trace s ++ ev1 ++ ev2 ++ ev3 ++ ev4 /\
    forallb validation_event ev1 = true /\
    forallb plasma_event ev2 = true /\
    forallb signing_event ev3 = true /\
    forallb publish_event ev4 = true /\
    (exists r1 s1 rest,
       _checkAndSetFields z kp s = (r1, s1) /\
       trace s1 = trace s ++ ev1 /\
       ev1 = EvGetAddress :: rest) /\
    (forall e s1,
       _checkAndSetFields z kp s = (Throw e, s1) ->
       r = Throw e /\ s' = s1 /\ ev2 = [] /\ ev3 = [] /\ ev4 = []) /\
    (forall b s1 e s2,
       _checkAndSetFields z kp s = (Ok b, s1) ->
       _setDifficulty z cb wait s1 = (Throw e, s2) ->
       r = Throw e /\ s' = s2 /\ trace s2 = trace s1 ++ ev2 /\ ev3 = [] /\ ev4 = []) /\
    (forall b s1 b' s2 e s3,
       _checkAndSetFields z kp s = (Ok b, s1) ->
       _setDifficulty z cb wait s1 = (Ok b', s2) ->
       _setHashAndSignature kp s2 = (Throw e, s3) ->
       r = Throw e /\ s' = s3 /\ trace s2 = trace s1 ++ ev2 /\
       trace s3 = trace s2 ++ ev3 /\ ev4 = []) /\
    (forall t,
       r = Ok t ->
       t = tx s' /\
       getTransactionHash t = Ok (hash t) /\
       ev3 = [EvSign (Hash_getBytes (hash t))] /\
       ev4 = [EvPublish t] /\
       send_report z kp cb wait s s' ev1 ev2 t) /\
    (isSendBlock (blockType (tx s)) = false ->
     (forall w, exists w',
        getBlockByHash (ledger z) (fromBlockHash (tx s)) w = (Ok None, w')) ->
     exists e, r = Throw e /\ ev2 = [] /\ ev3 = [] /\ ev4 = []).
Proof.
  intro Hrun. rewrite send_run in Hrun.
  assert (Hunres : forall b s1,
    _checkAndSetFields z kp s = (Ok b, s1) ->
    isSendBlock (blockType (tx s)) = false ->
    (forall w, exists w',
       getBlockByHash (ledger z) (fromBlockHash (tx s)) w = (Ok None, w')) ->
    False).
  { intros b s1 Hok Hsend Hnone.
    destruct (gate_ok_receive z kp s b s1 Hsend Hok)
      as (_ & _ & a & pk & fb & m & w4 & sb & w5 & _ & E5 & _).
    destruct (Hnone w4) as [w' E']. rewrite E' in E5. discriminate. }
  destruct (_checkAndSetFields z kp s) as [r1 s1] eqn:E1.
  destruct (gate_emits z kp _ _ _ E1) as (ev1 & T1 & F1).
  destruct (gate_first_call z kp _ _ _ E1) as (rest1 & G1).
  assert (Hev1 : ev1 = EvGetAddress :: rest1)
    by (rewrite T1 in G1; now apply app_inv_head in G1).
  assert (Hgate : exists r1' s1' rest,
            (r1, s1) = (r1', s1') /\ trace s1' = trace s ++ ev1 /\
            ev1 = EvGetAddress :: rest)
    by (exists r1, s1, rest1; auto).
  destruct r1 as [b|e].
  2:{ inv_run Hrun. exists ev1, [], [], [].
      rewrite !app_nil_r.
      split; [exact T1|]. split; [exact F1|].
      split; [reflexivity|]. split; [reflexivity|]. split; [reflexivity|].
      split; [exact Hgate|].
      split; [intros e0 s0 E0; injection E0 as <- <-; auto|].
      split; [intros; discriminate|]. split; [intros; discriminate|].
      split; [intros; discriminate|].
      intros _ _. exists e. auto. }
  destruct (_setDifficulty z cb wait s1) as [r2 s2] eqn:E2.
  destruct (setDifficulty_emits z cb wait _ _ _ E2) as (ev2 & T2 & F2).
  destruct r2 as [b'|e].
  2:{ inv_run Hrun. exists ev1, ev2, [], [].
      rewrite !app_nil_r.
      split; [now rewrite T2, T1, <- app_assoc|]. split; [exact F1|].
      split; [exact F2|]. split; [reflexivity|]. split; [reflexivity|].
      split; [exact Hgate|].
      split; [intros; discriminate|].
      split.
      { intros b0 s0 e0 s2' E0 E0'. injection E0 as <- <-.
        rewrite E2 in E0'. injection E0' as <- <-. auto. }
      split.
      { intros b0 s0 b1 s2' e0 s3 E0 E0'. injection E0 as <- <-.
        rewrite E2 in E0'. discriminate. }
      split; [intros; discriminate|].
      intros Hsend Hnone. exfalso. now apply (Hunres b s1 eq_refl Hsend Hnone). }
  destruct (_setHashAndSignature kp s2) as [r3 s3] eqn:E3.
  destruct (setHashAndSignature_emits kp _ _ _ E3) as (ev3 & T3 & F3).
  destruct r3 as [b''|e].
  2:{ inv_run Hrun. exists ev1, ev2, ev3, [].
      rewrite !app_nil_r.
      split; [now rewrite T3, T2, T1, <- !app_assoc|]. split; [exact F1|].
      split; [exact F2|]. split; [exact F3|]. split; [reflexivity|].
      split; [exact Hgate|].
      split; [intros; discriminate|].
      split.
      { intros b0 s0 e0 s2' E0 E0'. injection E0 as <- <-.
        rewrite E2 in E0'. discriminate. }
      split.
      { intros b0 s0 b1 s2' e0 s3' E0 E0' E0''. injection E0 as <- <-.
        rewrite E2 in E0'. injection E0' as <- <-.
        rewrite E3 in E0''. injection E0'' as <- <-. auto. }
      split; [intros; discriminate|].
      intros Hsend Hnone. exfalso. now apply (Hunres b s1 eq_refl Hsend Hnone). }
  destruct (setHashAndSignature_ok kp s2 b'' s3 E3) as (-> & Eh & Es & Ht3 & Tr3).
  assert (Hev3 : ev3 = [EvSign (Hash_getBytes (hash (tx s3)))])
    by (rewrite T3 in Tr3; now apply app_inv_head in Tr3).
  pose proof (setDifficulty_returns_true z cb wait s1 b' s2 E2) as ->.
  destruct (setDifficulty_first_call z cb wait _ _ _ E2) as (rest2 & G2).
  assert (Hev2 : ev2 = EvGetRequiredPoW (quota_param (tx s1)) :: rest2)
    by (rewrite T2 in G2; now apply app_inv_head in G2).
  destruct (gate_ok_linkage z kp s b s1 E1) as (a & pk & fb & m & w4 & Hl).
  destruct (gate_ok_state z kp s b s1 a pk fb m w4 Hl E1)
    as (-> & _ & _ & Hsendtr & Hrecvtr).
  assert (Hlink : exists rest, ev1 = linkage_calls a ++ rest).
  { destruct (isSendBlock (blockType (tx s))) eqn:Hsend.
    - destruct (Hsendtr eq_refl) as [_ Tr]. rewrite T1 in Tr.
      apply app_inv_head in Tr. exists []. now rewrite app_nil_r.
    - destruct (Hrecvtr eq_refl) as (_ & _ & sb & _ & _ & Tr). rewrite T1 in Tr.
      apply app_inv_head in Tr. eauto. }
  destruct (publishRawTransaction (ledger z) (tx s3) (world s3)) as [r4 w5] eqn:E4.
  inv_run Hrun. cbn [tx world trace].
  exists ev1, ev2, ev3, [EvPublish (tx s3)].
  split; [now rewrite T3, T2, T1, <- !app_assoc|]. split; [exact F1|].
  split; [exact F2|]. split; [exact F3|]. split; [reflexivity|].
  split; [exact Hgate|].
  split; [intros; discriminate|].
  split.
  { intros b0 s0 e0 s2' E0 E0'. injection E0 as <- <-.
    rewrite E2 in E0'. discriminate. }
  split.
  { intros b0 s0 b1 s2' e0 s3' E0 E0' E0''. injection E0 as <- <-.
    rewrite E2 in E0'. injection E0' as <- <-.
    rewrite E3 in E0''. discriminate. }
  split.
  { intros t Ht. destruct r4 as [[]|e]; [|discriminate]. injection Ht as <-.
    split; [reflexivity|].
    split; [rewrite Ht3, getTransactionHash_computed_fields; exact Eh|].
    split; [exact Hev3|]. split; [reflexivity|].
    exists s1, s2, s3, a, pk, fb, m, w4. cbn [world].
    split; [exact Hl|]. split; [exact E1|]. split; [exact T1|].
    split; [exact Hlink|]. split; [exact E2|]. split; [exact T2|].
    split; [exists rest2; exact Hev2|]. split; [exact E3|].
    split; [reflexivity|]. split; [exact Ht3|]. split; [exact Eh|].
    split; [exact Es|]. exact E4. }
  intros Hsend Hnone. exfalso. now apply (Hunres true s1 eq_refl Hsend Hnone).
Qed.

End SendOrder.

(* ================================================================== *)
(** ** Reward history: JSON round trips and failures *)

Lemma Array_map_length {A B : Type} (f : A -> Res B) (l : list A) (ys : list B) :
  Array_map f l = Ok ys -> List.length ys = List.length l.
Proof.
  revert ys. induction l as [|x l IH]; intros ys E; cbn in E.
  - now injection E as <-.
  - destruct (f x) as [y|e]; [|discriminate].
    destruct (Array_map f l) as [ys'|e]; [|discriminate].
    injection E as <-. cbn. now rewrite (IH ys').
Qed.

Lemma Array_map_map {A B C : Type} (f : B -> Res C) (g : A -> B) (h : A -> C) (l : list A) :
  (forall x, f (g x) = Ok (h x)) -> Array_map f (map g l) = Ok (map h l).
Proof.
  intro Hfg. induction l as [|x l IH]; cbn; [reflexivity|].
  now rewrite Hfg, IH.
Qed.

Lemma entry_fromJson_toJson (e : RewardHistoryEntry.t) :
  RewardHistoryEntry.fromJson (RewardHistoryEntry.toJson e) = Ok e.
Proof. now destruct e. Qed.

Lemma entry_fromJson_nullish (json : JsValue) :
  RewardHistoryEntry.fromJson json
  = if is_nullish json then Throw TypeError
    else Ok (RewardHistoryEntry.mk
               (match get_prop json "epoch" with Ok v => v | Throw _ => JsUndefined end)
               (match get_prop json "znnAmount" with Ok v => v | Throw _ => JsUndefined end)
               (match get_prop json "qsrAmount" with Ok v => v | Throw _ => JsUndefined end)).
Proof. now destruct json. Qed.

(** X11. A reward history entry survives the trip through JSON, whatever
    its three fields hold; and reading an entry from a JSON value and
    writing it back keeps the value's [epoch], [znnAmount] and [qsrAmount]
    and no other property. *)
Theorem RewardHistoryEntry_roundtrip :
  (forall e,
     RewardHistoryEntry.fromJson (RewardHistoryEntry.toJson e) = Ok e) /\
  (forall json e,
     RewardHistoryEntry.fromJson json = Ok e ->
     forall key,
       get_prop (RewardHistoryEntry.toJson e) key
       = if String.eqb key "epoch" || String.eqb key "znnAmount"
            || String.eqb key "qsrAmount"
         then get_prop json key
         else Ok JsUndefined).
Proof.
  split; [exact entry_fromJson_toJson|].
  intros json e E key. rewrite entry_fromJson_nullish in E.
  destruct (is_nullish json) eqn:Hn; [discriminate|].
  injection E as <-. cbn.
  destruct (String.eqb_spec key "epoch") as [->|_].
  { cbn. now destruct json. }
  destruct (String.eqb_spec key "znnAmount") as [->|_].
  { cbn. now destruct json. }
  destruct (String.eqb_spec key "qsrAmount") as [->|_].
  { cbn. now destruct json. }
  reflexivity.
Qed.

Lemma lookup_prop_missing (key : string) (props : list (string * JsValue)) :
  ~ In key (map fst props) -> lookup_prop key props = JsUndefined.
Proof.
  induction props as [|[k v] props IH]; cbn; intro Hnot; [reflexivity|].
  destruct (String.eqb_spec key k) as [->|_]; [exfalso; apply Hnot; now left|].
  apply IH. intro Hin. apply Hnot. now right.
Qed.

(** X12. Reading a reward history entry fails on [null] and [undefined],
    with a TypeError, and on nothing else. An object gives the entry of its
    [epoch], [znnAmount] and [qsrAmount] properties, where a property the
    object does not have reads as [undefined]; a value that is neither
    nullish nor an object (a boolean, a number, a string, an array) gives
    the entry whose three fields are all [undefined]. *)
Theorem RewardHistoryEntry_fromJson_fails_on_nullish_only (json : JsValue) :
  (is_nullish json = true -> RewardHistoryEntry.fromJson json = Throw TypeError) /\
  (forall e, RewardHistoryEntry.fromJson json = Throw e ->
             is_nullish json = true /\ e = TypeError) /\
  (forall props,
     RewardHistoryEntry.fromJson (JsObject props)
     = Ok (RewardHistoryEntry.mk (lookup_prop "epoch" props)
                                 (lookup_prop "znnAmount" props)
                                 (lookup_prop "qsrAmount" props))) /\
  (forall key props,
     ~ In key (map fst props) -> lookup_prop key props = JsUndefined) /\
  (is_nullish json = false ->
   (forall props, json <> JsObject props) ->
   RewardHistoryEntry.fromJson json
   = Ok (RewardHistoryEntry.mk JsUndefined JsUndefined JsUndefined)).
Proof.
  split; [|split; [|split; [|split]]].
  - rewrite entry_fromJson_nullish. now intros ->.
  - intros e. rewrite entry_fromJson_nullish.
    destruct (is_nullish json); [|discriminate].
    intro E. split; [reflexivity|]. congruence.
  - intro props. reflexivity.
  - exact lookup_prop_missing.
  - intros Hn Hobj. destruct json as [| | | | | |props]; try discriminate; try reflexivity.
    now destruct (Hobj props).
Qed.

(** X13. A reward history list survives the trip through JSON: its count
    and every entry come back as they were. *)
Theorem RewardHistoryList_roundtrip (l : RewardHistoryList.t) :
  RewardHistoryList.fromJson (RewardHistoryList.toJson l) = Ok l.
Proof.
  destruct l as [count entries].
  unfold RewardHistoryList.fromJson, RewardHistoryList.toJson. cbn.
  rewrite (Array_map_map RewardHistoryEntry.fromJson RewardHistoryEntry.toJson
             (fun e => e) entries entry_fromJson_toJson).
  now rewrite map_id.
Qed.

Lemma Array_map_entries (items : list JsValue) :
  (forallb (fun v => negb (is_nullish v)) items = true ->
   exists entries, Array_map RewardHistoryEntry.fromJson items = Ok entries) /\
  (forallb (fun v => negb (is_nullish v)) items = false ->
   Array_map RewardHistoryEntry.fromJson items = Throw TypeError).
Proof.
  induction items as [|v items [IHok IHfail]]; cbn.
  - split; [eauto|discriminate].
  - rewrite entry_fromJson_nullish.
    destruct (is_nullish v); cbn; [split; [discriminate|reflexivity]|].
    split.
    + intro Hall. destruct (IHok Hall) as [entries ->]. eauto.
    + intro Hall. now rewrite (IHfail Hall).
Qed.

(** X14. When reading a reward history list returns and when it fails. It
    returns exactly when the value is neither [null] nor [undefined], its
    [list] property is an array and no element of the array is [null] or
    [undefined]; every failure is a TypeError. What it returns has one
    entry per element of the array and the [count] of the value as it is,
    which is not compared with the number of entries. *)
Theorem RewardHistoryList_fromJson_outcomes (json : JsValue) :
  ((exists l, RewardHistoryList.fromJson json = Ok l) <->
   (is_nullish json = false /\
    exists items,
      get_prop json "list" = Ok (JsArray items) /\
      forallb (fun v => negb (is_nullish v)) items = true)) /\
  (forall e, RewardHistoryList.fromJson json = Throw e -> e = TypeError) /\
  (forall l items,
     RewardHistoryList.fromJson json = Ok l ->
     get_prop json "list" = Ok (JsArray items) ->
     get_prop json "count" = Ok (RewardHistoryList.count l) /\
     List.length (RewardHistoryList.list l) = List.length items).
Proof.
  destruct (is_nullish json) eqn:Hn.
  { assert (E : RewardHistoryList.fromJson json = Throw TypeError)
      by (destruct json; try discriminate; reflexivity).
    rewrite E.
    split; [split; [intros [l F]; discriminate | intros [F _]; discriminate]|].
    split; [intros e F; congruence | intros l items F; discriminate]. }
  assert (Hc : exists count, get_prop json "count" = Ok count)
    by (destruct json; try discriminate; cbn; eauto).
  assert (Hl : exists v, get_prop json "list" = Ok v)
    by (destruct json; try discriminate; cbn; eauto).
  destruct Hc as [count Ec]. destruct Hl as [v El].
  unfold RewardHistoryList.fromJson. rewrite Ec, El.
  destruct v as [| | | | |items|];
    try (split;
         [split; [intros [l F]; discriminate
                 | intros (_ & items & Hi & _); discriminate]
         |split; [intros e F; congruence | intros l items F; discriminate]]).
  destruct (Array_map_entries items) as [Hok Hfail].
  destruct (forallb (fun v => negb (is_nullish v)) items) eqn:Hall.
  - destruct (Hok eq_refl) as [entries Em]. rewrite Em.
    split; [|split].
    + split; [intros _; split; [reflexivity|]; exists items; auto | eauto].
    + intros e F. discriminate.
    + intros l items' F Hi. injection F as <-. injection Hi as <-.
      split; [reflexivity|]. cbn. now apply (Array_map_length _ _ _ Em).
  - rewrite (Hfail eq_refl).
    split; [|split].
    + split; [intros [l F]; discriminate|].
      intros (_ & items' & Hi & Hall'). injection Hi as <-. congruence.
    + intros e F. congruence.
    + intros l items' F. discriminate.
Qed.

(* ================================================================== *)
(** ** The statements at work on the sample setting *)

Section Examples.

Import Sample.

Lemma toy_digest_length (b : Buffer) : List.length (toy_digest b) = 32%nat.
Proof. apply length_bytesBE. Qed.

Lemma template_fully_populated (n : string) :
  (List.length (Buffer_from_hex n) <= 8)%nat ->
  fully_populated (set_nonce n template).
Proof.
  intro Hn. constructor; cbn; try lia; try reflexivity; try exact Hn.
  exists 2. split; [reflexivity | lia].
Qed.

Lemma sample_enum_distinct :
  NoDup [userSend; contractSend; userReceive; genesisReceive; contractReceive].
Proof.
  repeat constructor; cbn; intuition discriminate.
Qed.

Lemma sample_linkage :
  linkage_reads zenon keyPair tt addr1 [x01; x02; x03] None (Momentum.mk h7 9) tt.
Proof.
  exists tt, tt, tt. repeat split; reflexivity.
Qed.

Lemma run_throw {A : Type} (x : Res A * State unit) (e : Exn) :
  fst x = Throw e -> x = (Throw e, snd x).
Proof. destruct x as [r s]. cbn. now intros ->. Qed.

(** The sample send template is encoded as the specification lays out. *)
Lemma getTransactionHash_layout_witness :
  exists fields,
    fields = canonical_fields 2 template /\
    getTransactionHash template = Ok (Hash.object (toy_digest (List.concat fields))) /\
    map (@List.length byte) fields
    = [8; 8; 8; 32; 8; 32; 20; 20; 32; 10; 32; 32; 32; 8; 8; 8]%nat.
Proof.
  destruct (getTransactionHash_layout (W:=unit) (H:=imports) template toy_digest_length
              (template_fully_populated "0000000000000000" (Nat.le_refl 8)))
    as (bt & fields & Hbt & Hf & _ & Hh & Hl & _).
  injection Hbt as <-.
  exists fields. split; [exact Hf | split; [exact Hh | exact Hl]].
Defined.

(** C6. At the amount -24 the encoder emits 31 bytes 255 and a byte 232 as
    the amount field (bytes 136 to 167 of the encoding), which as an
    unsigned big-endian integer is 2^256 - 24 and not the amount. *)
Theorem amount_field_of_negative_amount :
  exists source,
    getTransactionHash_source negative_amount = Ok source /\
    firstn 32 (skipn 136 source)
    = BytesUtils.numberToBytes (amount negative_amount) 32 /\
    firstn 32 (skipn 136 source) = repeat xff 31 ++ [xe8] /\
    beZ (firstn 32 (skipn 136 source)) = 2 ^ 256 - 24 /\
    beZ (firstn 32 (skipn 136 source)) <> amount negative_amount.
Proof.
  eexists. split; [reflexivity|].
  split; [vm_compute; reflexivity|].
  split; [vm_compute; reflexivity|].
  split; [vm_compute; reflexivity|].
  vm_compute. discriminate.
Qed.

(** Two templates that differ in the nonce string only, and are encoded
    to the same bytes and hashed to the same hash, whatever the digest. *)
Lemma nonce_strings_collide :
  nonce lower_nonce <> nonce upper_nonce /\
  upper_nonce = set_nonce (nonce upper_nonce) lower_nonce /\
  fully_populated lower_nonce /\
  fully_populated upper_nonce /\
  forall (W : Type) (I : Imports W),
    @getTransactionHash_source W I lower_nonce
    = @getTransactionHash_source W I upper_nonce /\
    @getTransactionHash W I lower_nonce = @getTransactionHash W I upper_nonce.
Proof.
  split; [discriminate|]. split; [reflexivity|].
  split; [apply template_fully_populated; vm_compute; lia|].
  split; [apply template_fully_populated; vm_compute; lia|].
  intros W I.
  assert (E : @getTransactionHash_source W I lower_nonce
              = @getTransactionHash_source W I upper_nonce).
  { apply encoded_values_determine_source.
    unfold same_encoded_values. repeat split. }
  split; [exact E|]. unfold getTransactionHash. now rewrite E.
Qed.

(** The two nonce strings of the sample have the same encoded values. *)
Lemma canonical_encoding_determinism_witness :
  same_encoded_values lower_nonce upper_nonce /\
  getTransactionHash lower_nonce = getTransactionHash upper_nonce.
Proof.
  destruct (canonical_encoding_determinism (W:=unit) (H:=imports)
              lower_nonce upper_nonce
              toy_digest_length
              (template_fully_populated "00000000deadbeef" (Nat.le_refl 8))
              (template_fully_populated "00000000DEADBEEF" (Nat.le_refl 8)))
    as (_ & Hiff & Hhash).
  assert (E : getTransactionHash_source lower_nonce
              = getTransactionHash_source upper_nonce)
    by (vm_compute; reflexivity).
  split; [apply (proj1 Hiff E) | apply (Hhash E)].
Defined.

(** At a frontier height of 2^53 autofill leaves the height at 2^53, which
    is not the frontier height plus one. *)
Lemma autofill_height_rounds_at_2_53 :
  fst (_autofillTransactionParameters
         (zenon_at (AccountBlock.mk h5 (2 ^ 53) addr1)) (start template)) = Ok tt /\
  height (tx (snd (_autofillTransactionParameters
                     (zenon_at (AccountBlock.mk h5 (2 ^ 53) addr1)) (start template))))
  = 2 ^ 53 /\
  height (tx (snd (_autofillTransactionParameters
                     (zenon_at (AccountBlock.mk h5 (2 ^ 53) addr1)) (start template))))
  <> AccountBlock.height (AccountBlock.mk h5 (2 ^ 53) addr1) + 1.
Proof.
  split; [vm_compute; reflexivity|]. split; [vm_compute; reflexivity|].
  vm_compute. discriminate.
Qed.

(** Autofill on a fresh account, and on an account whose frontier block is
    [h5] at height 7. *)
Lemma autofill_sets_linkage_witness :
  (height (tx (snd (_autofillTransactionParameters zenon (start template)))) = 1 /\
   previousHash (tx (snd (_autofillTransactionParameters zenon (start template))))
   = emptyHash /\
   momentumAcknowledged (tx (snd (_autofillTransactionParameters zenon (start template))))
   = HashHeight.mk h7 9) /\
  (height (tx (snd (_autofillTransactionParameters
                      (zenon_at (AccountBlock.mk h5 7 addr1)) (start template)))) = 7 + 1 /\
   previousHash (tx (snd (_autofillTransactionParameters
                            (zenon_at (AccountBlock.mk h5 7 addr1)) (start template))))
   = h5).
Proof.
  split.
  - destruct (autofill_sets_linkage zenon (start template) _ _
                (surjective_pairing _)) as [_ Hlink].
    destruct (Hlink None tt eq_refl) as (Hnone & _ & Hm).
    destruct (Hnone eq_refl) as [Hh Hp].
    destruct (Hm (Momentum.mk h7 9) tt eq_refl) as (_ & Hmom & _).
    split; [exact Hh | split; [exact Hp | exact Hmom]].
  - destruct (autofill_sets_linkage (zenon_at (AccountBlock.mk h5 7 addr1))
                (start template) _ _ (surjective_pairing _)) as [_ Hlink].
    destruct (Hlink (Some (AccountBlock.mk h5 7 addr1)) tt eq_refl) as (_ & Hsome & _).
    destruct (Hsome _ eq_refl) as (_ & Hh & Hp).
    split; [apply Hh; cbn [AccountBlock.height]; lia | exact Hp].
Defined.

(** The four receive rules reject, and a send block passes with what a
    receive block would be rejected for. *)
Lemma receive_block_gating_witness :
  fst (_checkAndSetFields zenon keyPair (start (receive emptyHash []))) = Throw JsError /\
  fst (_checkAndSetFields zenon keyPair (start (receive h9 []))) = Throw JsError /\
  fst (_checkAndSetFields zenon keyPair (start (receive h6 []))) = Throw JsError /\
  fst (_checkAndSetFields zenon keyPair (start (receive h5 [x01]))) = Throw JsError /\
  fst (_checkAndSetFields zenon keyPair (start template)) = Ok true.
Proof.
  assert (Hgate : forall from d a pk fb m w4,
            linkage_reads zenon keyPair tt a pk fb m w4 ->
            receive_rules_enforced zenon keyPair (start (receive from d)) a pk fb m w4).
  { intros from d.
    destruct (receive_block_gating zenon keyPair (start (receive from d)) 3
                sample_enum_distinct eq_refl) as [Hrecv _].
    destruct (Hrecv eq_refl) as [_ Henf]. exact Henf. }
  split; [|split; [|split; [|split]]].
  - destruct (Hgate emptyHash [] _ _ _ _ _ sample_linkage) as [Ha _].
    rewrite (Ha eq_refl). reflexivity.
  - destruct (Hgate h9 [] _ _ _ _ _ sample_linkage) as [_ Hrest].
    destruct (Hrest ltac:(discriminate) (Ok None) tt eq_refl) as (Hb & _).
    rewrite (Hb eq_refl). reflexivity.
  - destruct (Hgate h6 [] _ _ _ _ _ sample_linkage) as [_ Hrest].
    destruct (Hrest ltac:(discriminate) (Ok (Some (AccountBlock.mk h6 4 addr2))) tt
                eq_refl) as (_ & Hc & _).
    rewrite (Hc _ eq_refl ltac:(vm_compute; discriminate)). reflexivity.
  - destruct (Hgate h5 [x01] _ _ _ _ _ sample_linkage) as [_ Hrest].
    destruct (Hrest ltac:(discriminate) (Ok (Some (AccountBlock.mk h5 3 addr1))) tt
                eq_refl) as (_ & _ & Hd & _).
    rewrite (Hd _ eq_refl ltac:(discriminate)). reflexivity.
  - destruct (receive_block_gating zenon keyPair (start template) 2
                sample_enum_distinct eq_refl) as [_ Hsend].
    rewrite (Hsend eq_refl _ _ _ _ _ sample_linkage). reflexivity.
Defined.

(** No proof-of-work with enough plasma; one solver call without. *)
Lemma plasma_decision_witness :
  (nonce (tx (snd (_setDifficulty zenon None false (start template))))
   = "0000000000000000"%string /\
   trace (snd (_setDifficulty zenon None false (start template)))
   = [EvGetRequiredPoW (quota_param template)]) /\
  (difficulty (tx (snd (_setDifficulty zenon_pow None false (start template)))) = 1000 /\
   nonce (tx (snd (_setDifficulty zenon_pow None false (start template))))
   = "00000000deadbeef"%string).
Proof.
  split.
  - destruct (plasma_decision zenon None false (start template) fused tt _ _
                eq_refl (surjective_pairing _)) as [Hzero _].
    destruct (Hzero eq_refl) as (_ & _ & _ & Hn & Ht).
    split; [exact Hn | exact Ht].
  - destruct (plasma_decision zenon_pow None false (start template) unfused tt _ _
                eq_refl (surjective_pairing _)) as [_ Hpow].
    destruct (Hpow ltac:(discriminate)) as (_ & Hd & Hsolver).
    destruct (Hsolver tt eq_refl) as [_ Hn].
    split; [exact Hd | exact (Hn _ tt eq_refl)].
Defined.

(** An unresolved receive block stops in the gate; the sample send block
    goes through, hashed over its own encoding. *)
Lemma send_stage_order_witness :
  (exists e, fst (send zenon keyPair None false (start (receive h9 []))) = Throw e) /\
  (exists t,
     fst (send zenon keyPair None false (start template)) = Ok t /\
     getTransactionHash t = Ok (hash t) /\
     signature t = rev (Hash_getBytes (hash t))).
Proof.
  split.
  - destruct (send_stage_order zenon keyPair None false (start (receive h9 [])) _ _
                (surjective_pairing _))
      as (ev1 & ev2 & ev3 & ev4 & _ & _ & _ & _ & _ & _ & _ & _ & _ & _ & Hunres).
    destruct (Hunres eq_refl) as (e & He & _).
    { intros []. exists tt. reflexivity. }
    exists e. exact He.
  - destruct (send_stage_order zenon keyPair None false (start template) _ _
                (surjective_pairing _))
      as (ev1 & ev2 & ev3 & ev4 & _ & _ & _ & _ & _ & _ & _ & _ & _ & Hok & _).
    exists (tx (snd (send zenon keyPair None false (start template)))).
    assert (E : fst (send zenon keyPair None false (start template))
                = Ok (tx (snd (send zenon keyPair None false (start template)))))
      by (vm_compute; reflexivity).
    destruct (Hok _ E) as (_ & Hh & _ & _ & Hreport).
    destruct Hreport
      as (s1 & s2 & s3 & a & pk & fb & m & w4 & _ & _ & _ & _ & _ & _ & _ & _ & _ & _ & _ & Hs & _).
    split; [exact E|]. split; [exact Hh|].
    cbn [sign keyPair] in Hs.
    pose proof (f_equal fst Hs) as Hsig. cbn [fst] in Hsig.
    apply Ok_inj in Hsig. symmetry. exact Hsig.
Defined.

(** A receive block without source and a receive block with a payload are
    rejected for different rules with one and the same thrown value. *)
Lemma validation_errors_coincide :
  (fromBlockHash (receive emptyHash []) = emptyHash /\ data (receive emptyHash []) = []) /\
  (fromBlockHash (receive h5 [x01]) <> emptyHash /\ data (receive h5 [x01]) <> []) /\
  fst (_checkAndSetFields zenon keyPair (start (receive emptyHash []))) = Throw JsError /\
  fst (_checkAndSetFields zenon keyPair (start (receive h5 [x01]))) = Throw JsError /\
  JsError = mkExn "Error" "".
Proof.
  repeat split; try discriminate.
Qed.

(** The payload rule throws a plain Error, and [send] ends with it. *)
Lemma validation_failure_is_plain_Error_witness :
  exn_message JsError = ""%string /\
  forall cb wait,
    send zenon keyPair cb wait (start (receive h5 [x01]))
    = (Throw JsError,
       snd (_checkAndSetFields zenon keyPair (start (receive h5 [x01])))).
Proof.
  assert (Hrun : _checkAndSetFields zenon keyPair (start (receive h5 [x01]))
                 = (Throw JsError,
                    snd (_checkAndSetFields zenon keyPair (start (receive h5 [x01])))))
    by (apply run_throw; reflexivity).
  destruct (validation_failure_is_plain_Error zenon keyPair (start (receive h5 [x01]))
              addr1 [x01; x02; x03] None (Momentum.mk h7 9) tt
              (Some (AccountBlock.mk h5 3 addr1)) tt JsError _
              sample_linkage eq_refl Hrun)
    as (_ & _ & Hm & Hsend).
  split; [exact Hm | exact Hsend].
Defined.

(** With an observer that throws, [send] fails where it succeeds without. *)
Lemma failing_observer_aborts_send :
  fst (send zenon_pow keyPair (Some failing) false (start template))
  = Throw (mkExn "Error" "observer failed") /\
  exists t, fst (send zenon_pow keyPair None false (start template)) = Ok t.
Proof.
  split; [vm_compute; reflexivity|].
  eexists. vm_compute. reflexivity.
Qed.

(** The quiet observer is told [generating], then [done], around the one
    solver call. *)
Lemma observer_signals_witness :
  _setDifficulty zenon_pow (Some quiet) false (start template)
  = (Ok true,
     mkState (set_nonce "00000000deadbeef" (pow_funded unfused template)) tt
       [EvGetRequiredPoW (quota_param template); EvObserver generating [];
        EvGeneratePoW (_getPoWData template) 1000; EvObserver done []]).
Proof.
  destruct (observer_signals zenon_pow quiet false (start template) unfused tt
              eq_refl ltac:(discriminate)) as [Horder _].
  exact (Horder tt "00000000deadbeef"%string tt tt eq_refl eq_refl eq_refl).
Defined.

(** A missing block type and a block type outside the enumeration get the
    receive rules. *)
Lemma non_send_block_type_gets_receive_rules_witness :
  isSendBlock None = false /\
  fst (_checkAndSetFields zenon keyPair (start (receive_as None emptyHash [])))
  = Throw JsError /\
  fst (_checkAndSetFields zenon keyPair (start (receive_as (Some 99) h5 [x01])))
  = Throw JsError.
Proof.
  assert (N1 : blockType (tx (start (receive_as None emptyHash []))) <> Some userSend)
    by (vm_compute; discriminate).
  assert (N2 : blockType (tx (start (receive_as None emptyHash []))) <> Some contractSend)
    by (vm_compute; discriminate).
  assert (O1 : blockType (tx (start (receive_as (Some 99) h5 [x01]))) <> Some userSend)
    by (vm_compute; discriminate).
  assert (O2 : blockType (tx (start (receive_as (Some 99) h5 [x01]))) <> Some contractSend)
    by (vm_compute; discriminate).
  destruct (non_send_block_type_gets_receive_rules zenon keyPair
              (start (receive_as None emptyHash [])) N1 N2) as [Hnone Henf].
  destruct (Henf _ _ _ _ _ sample_linkage) as [Ha _].
  destruct (non_send_block_type_gets_receive_rules zenon keyPair
              (start (receive_as (Some 99) h5 [x01])) O1 O2) as [_ Henf'].
  destruct (Henf' _ _ _ _ _ sample_linkage) as [_ Hrest].
  destruct (Hrest ltac:(discriminate) (Ok (Some (AccountBlock.mk h5 3 addr1))) tt
              eq_refl) as (_ & _ & Hd & _).
  split; [exact Hnone|]. split.
  - rewrite (Ha eq_refl). reflexivity.
  - rewrite (Hd _ eq_refl ltac:(discriminate)). reflexivity.
Defined.

(** A [Hash] object that merely holds the bytes of the sentinel is not the
    sentinel: the gate does not stop at the first rule but asks the Ledger
    Reader for it. *)
Example copy_of_sentinel_is_looked_up :
  Hash_getBytes (Hash.object zero32) = Hash_getBytes emptyHash /\
  _checkAndSetFields zenon keyPair (start (receive (Hash.object zero32) []))
  = (Throw JsError,
     mkState (linked addr1 [x01; x02; x03] None (Momentum.mk h7 9)
                (receive (Hash.object zero32) []))
       tt (linkage_calls addr1 ++ [EvGetBlockByHash (Hash.object zero32)])).
Proof.
  split; reflexivity.
Qed.

End Examples.

(* ================================================================== *)
(** ** The further properties at work on the sample setting *)

Section MoreExamples.

Import Sample.

Lemma run_ok {A : Type} (x : Res A * State unit) (a : A) :
  fst x = Ok a -> x = (Ok a, snd x).
Proof. destruct x as [r s]. cbn. now intros ->. Qed.

(** The sample receive block for [h5] passes the gate, which has resolved
    [h5] to a block for the key pair's address. *)
Lemma gate_postcondition_witness :
  address (tx (snd (_checkAndSetFields zenon keyPair (start (receive h5 []))))) = addr1 /\
  exists sb,
    getBlockByHash ledgerApi h5 tt = (Ok (Some sb), tt) /\
    Address_toString (AccountBlock.toAddress sb) = Address_toString addr1.
Proof.
  assert (Hrun : _checkAndSetFields zenon keyPair (start (receive h5 []))
                 = (Ok true, snd (_checkAndSetFields zenon keyPair (start (receive h5 [])))))
    by (apply run_ok; reflexivity).
  destruct (gate_postcondition zenon keyPair (start (receive h5 [])) true _ Hrun)
    as (_ & a & pk & fb & m & w4 & _ & _ & Ha & _ & _ & Hrecv).
  destruct (Hrecv eq_refl) as (_ & _ & sb & E5 & Heq).
  assert (Ea : a = addr1) by (rewrite <- Ha; reflexivity).
  subst a. destruct w4.
  split; [reflexivity|]. exists sb. split; [exact E5 | exact Heq].
Defined.

(** With proof-of-work required, the stored difficulty is the required
    one. *)
Lemma plasma_stage_postcondition_witness :
  exists resp w1,
    getRequiredPoWForAccountBlock (plasma (embedded zenon_pow))
      (quota_param template) tt = (Ok resp, w1) /\
    difficulty (tx (snd (_setDifficulty zenon_pow None false (start template))))
    = requiredDifficulty resp.
Proof.
  assert (Hrun : _setDifficulty zenon_pow None false (start template)
                 = (Ok true, snd (_setDifficulty zenon_pow None false (start template))))
    by (apply run_ok; reflexivity).
  destruct (plasma_stage_postcondition zenon_pow None false (start template) true _ Hrun)
    as (_ & resp & w1 & E1 & Hd & _).
  exists resp, w1. split; [exact E1 | exact Hd].
Defined.

(** The solver input of the sample block is the digest of the key pair's
    address and the bytes of the empty hash. *)
Lemma pow_input_is_signer_and_frontier_witness :
  _getPoWData (tx (snd (_checkAndSetFields zenon_pow keyPair (start template))))
  = Hash_digest (Address_getBytes addr1 ++ Hash_getBytes emptyHash).
Proof.
  pose (s1 := snd (_checkAndSetFields zenon_pow keyPair (start template))).
  assert (Hgate : _checkAndSetFields zenon_pow keyPair (start template) = (Ok true, s1))
    by (apply run_ok; reflexivity).
  assert (Hl : linkage_reads zenon_pow keyPair tt addr1 [x01; x02; x03] None
                 (Momentum.mk h7 9) tt)
    by (exists tt, tt, tt; repeat split; reflexivity).
  apply (pow_input_is_signer_and_frontier zenon_pow keyPair None false (start template)
           true s1 addr1 [x01; x02; x03] None (Momentum.mk h7 9) tt
           (fst (_setDifficulty zenon_pow None false s1))
           (snd (_setDifficulty zenon_pow None false s1))
           [EvGetRequiredPoW (quota_param (tx s1));
            EvGeneratePoW (_getPoWData (tx s1)) 1000]
           Hl Hgate (surjective_pairing _) eq_refl
           (_getPoWData (tx s1)) 1000).
  right. left. reflexivity.
Defined.

(** The sample block, hashed and signed. *)
Lemma signing_postcondition_witness :
  getTransactionHash (tx (snd (_setHashAndSignature keyPair (start template))))
  = Ok (hash (tx (snd (_setHashAndSignature keyPair (start template))))).
Proof.
  assert (Hrun : _setHashAndSignature keyPair (start template)
                 = (Ok true, snd (_setHashAndSignature keyPair (start template))))
    by (apply run_ok; vm_compute; reflexivity).
  destruct (signing_postcondition keyPair (start template) true _ Hrun)
    as (_ & Hh & _).
  exact Hh.
Defined.

(** The sample block, sent without proof-of-work. *)
Lemma send_success_without_pow_witness :
  exists final,
    fst (send zenon keyPair None false (start template)) = Ok final /\
    difficulty final = 0 /\
    nonce final = "0000000000000000"%string /\
    fusedPlasma final = 21000.
Proof.
  pose (s1 := snd (_checkAndSetFields zenon keyPair (start template))).
  pose (funded := set_nonce "0000000000000000"
                    (set_difficulty 0 (set_fusedPlasma 21000 (tx s1)))).
  pose (h := match getTransactionHash funded with
             | Ok h => h
             | Throw _ => emptyHash
             end).
  assert (Hgate : _checkAndSetFields zenon keyPair (start template) = (Ok true, s1))
    by (apply run_ok; reflexivity).
  assert (Eh : getTransactionHash funded = Ok h) by (vm_compute; reflexivity).
  destruct (send_success_without_pow zenon keyPair None false (start template)
              true s1 fused tt h (rev (Hash_getBytes h)) tt tt
              Hgate eq_refl eq_refl Eh eq_refl eq_refl)
    as (Hs & Hf & Hd & Hn & _).
  eexists. rewrite Hs. split; [reflexivity|].
  split; [exact Hd|]. split; [exact Hn | exact Hf].
Defined.

(** User-receive is not a send type. *)
Lemma send_and_receive_types_exclude_witness :
  isSendBlock (Some 3) && isReceiveBlock 3 = false.
Proof.
  exact (send_and_receive_types_exclude 3 sample_enum_distinct).
Defined.

(** Without a block type the encoder of the sample setting throws, and
    nothing is signed. *)
Example missing_block_type_is_not_signed :
  _setHashAndSignature keyPair (start (receive_as None h5 []))
  = (Throw (mkExn "TypeError" ""), start (receive_as None h5 [])).
Proof. reflexivity. Qed.

End MoreExamples.
